(** * Verification of the MediPal frontend: middleware, server actions and the
    chat payload dispatcher.

    The Next.js code is embedded shallowly.  JavaScript values are the
    inductive [jsv]; exceptions are Error objects ([exn]); server actions run
    in a small state-and-exception monad over the cookie store and the log of
    HTTP requests issued.  Library functions the repository does not define
    ([fetch], [jwtVerify], [JSON.parse], zod's e-mail regex, [Date.parse]) are
    section variables, so every theorem holds for all of their behaviours. *)

From Stdlib Require Import String Ascii List ZArith Bool Lia.
Import ListNotations.
Open Scope string_scope.
Open Scope Z_scope.
Local Set Warnings "-register-all".

(** ** JavaScript values *)

(** A JavaScript value as it flows through the code: JSON data, [undefined]
    and [NaN].  Numbers are integral (status codes, ids). *)
Inductive jsv : Type :=
  | JUndef
  | JNull
  | JBool (b : bool)
  | JNum (n : Z)
  | JNaN
  | JStr (s : string)
  | JArr (l : list jsv)
  | JObj (l : list (string * jsv)).

(** A thrown Error object: its [name] and [message]. *)
Record exn := mk_exn { exn_name : string; exn_message : string }.

Definition type_error (m : string) : exn := mk_exn "TypeError" m.

(** Result of a computation that may throw. *)
Inductive outcome (A : Type) : Type :=
  | Ret (a : A)
  | Throw (e : exn).
Arguments Ret {A} a.
Arguments Throw {A} e.

Definition obind {A B} (c : outcome A) (k : A -> outcome B) : outcome B :=
  match c with Ret a => k a | Throw e => Throw e end.

Notation "x <-? c ; k" := (obind c (fun x => k))
  (at level 61, c at next level, right associativity).

(** [String.length]-free helpers on strings. *)
Fixpoint str_prefix (p s : string) : bool :=
  match p, s with
  | EmptyString, _ => true
  | String a p', String b s' => Ascii.eqb a b && str_prefix p' s'
  | String _ _, EmptyString => false
  end.

(** [s.includes(p)]. *)
Fixpoint str_includes (p s : string) : bool :=
  str_prefix p s ||
  match s with EmptyString => false | String _ s' => str_includes p s' end.

Fixpoint str_slice (n : nat) (s : string) : string :=
  match n, s with
  | O, _ | _, EmptyString => EmptyString
  | S n', String a s' => String a (str_slice n' s')
  end.

Fixpoint str_concat (sep : string) (l : list string) : string :=
  match l with
  | [] => EmptyString
  | [x] => x
  | x :: r => x ++ sep ++ str_concat sep r
  end.

Definition digit_char (d : Z) : ascii := ascii_of_nat (48 + Z.to_nat d).

Fixpoint digits_aux (fuel : nat) (n : Z) (acc : string) : string :=
  match fuel with
  | O => acc
  | S f =>
      let acc' := String (digit_char (n mod 10)) acc in
      if n <? 10 then acc' else digits_aux f (n / 10) acc'
  end.

(** Decimal rendering of an integer, as [String(n)] for |n| < 10^40. *)
Definition z_to_string (z : Z) : string :=
  if z <? 0 then "-" ++ digits_aux 40 (- z) EmptyString
  else digits_aux 40 z EmptyString.

Definition quote_char : ascii := ascii_of_nat 34.

(** ** Abstract operations of the language *)

(** Truthiness ([if (v)], [v || w], [v && w]). *)
Definition truthy (v : jsv) : bool :=
  match v with
  | JUndef | JNull | JNaN => false
  | JBool b => b
  | JNum n => negb (n =? 0)
  | JStr s => negb (String.eqb s EmptyString)
  | JArr _ | JObj _ => true
  end.

(** [a || b] *)
Definition js_or (a b : jsv) : jsv := if truthy a then a else b.

(** [v === "s"] and [v === n] against a literal. *)
Definition is_str (v : jsv) (s : string) : bool :=
  match v with JStr s' => String.eqb s' s | _ => false end.
Definition is_num (v : jsv) (n : Z) : bool :=
  match v with JNum n' => n' =? n | _ => false end.

(** [typeof v === 'object' && v !== null]. *)
Definition is_object (v : jsv) : bool :=
  match v with JObj _ | JArr _ => true | _ => false end.

Fixpoint lookup_field (k : string) (l : list (string * jsv)) : jsv :=
  match l with
  | [] => JUndef
  | (k', v) :: r => if String.eqb k k' then v else lookup_field k r
  end.

(** Property read [v.k].  Strings, numbers, booleans and arrays have none of
    the named properties the code reads ([detail], [message], [sub], ...). *)
Definition get_prop (v : jsv) (k : string) : outcome jsv :=
  match v with
  | JUndef => Throw (type_error
      ("Cannot read properties of undefined (reading '" ++ k ++ "')"))
  | JNull => Throw (type_error
      ("Cannot read properties of null (reading '" ++ k ++ "')"))
  | JObj l => Ret (lookup_field k l)
  | _ => Ret JUndef
  end.

(** Optional chaining [v?.k]. *)
Definition opt_prop (v : jsv) (k : string) : jsv :=
  match v with
  | JObj l => lookup_field k l
  | _ => JUndef
  end.

(** [ToString] (after [ToPrimitive]), as used by template literals and [+]. *)
Fixpoint to_string (v : jsv) : string :=
  match v with
  | JUndef => "undefined"
  | JNull => "null"
  | JBool b => if b then "true" else "false"
  | JNum n => z_to_string n
  | JNaN => "NaN"
  | JStr s => s
  | JArr l =>
      str_concat ","
        ((fix go (l : list jsv) : list string :=
            match l with
            | [] => []
            | (JUndef | JNull) :: r => EmptyString :: go r
            | x :: r => to_string x :: go r
            end) l)
  | JObj _ => "[object Object]"
  end.

(** Element rendering of [Array.prototype.join]. *)
Definition join_elem (v : jsv) : string :=
  match v with JUndef | JNull => EmptyString | _ => to_string v end.

(** [ToNumber] of a primitive. *)
Definition to_number (v : jsv) : option Z :=
  match v with
  | JNull => Some 0
  | JBool b => Some (if b then 1 else 0)
  | JNum n => Some n
  | _ => None
  end.

(** The binary [+] operator. *)
Definition js_add (a b : jsv) : jsv :=
  let prim v := match v with JArr _ | JObj _ => JStr (to_string v) | _ => v end in
  match prim a, prim b with
  | JStr _, _ | _, JStr _ => JStr (to_string a ++ to_string b)
  | pa, pb =>
      match to_number pa, to_number pb with
      | Some x, Some y => JNum (x + y)
      | _, _ => JNaN
      end
  end.

(** ** JSON.stringify *)

Definition hex_char (d : nat) : ascii :=
  if Nat.ltb d 10 then ascii_of_nat (48 + d) else ascii_of_nat (87 + d).

Definition escape_char (c : ascii) : string :=
  let n := nat_of_ascii c in
  if Nat.eqb n 34 then String "\" (String quote_char EmptyString)
  else if Nat.eqb n 92 then "\\"
  else if Nat.eqb n 8 then "\b"
  else if Nat.eqb n 9 then "\t"
  else if Nat.eqb n 10 then "\n"
  else if Nat.eqb n 12 then "\f"
  else if Nat.eqb n 13 then "\r"
  else if Nat.ltb n 32 then
    "\u00" ++ String (hex_char (Nat.div n 16)) (String (hex_char (Nat.modulo n 16)) EmptyString)
  else String c EmptyString.

Fixpoint escape_string (s : string) : string :=
  match s with
  | EmptyString => EmptyString
  | String c s' => escape_char c ++ escape_string s'
  end.

Definition json_quote (s : string) : string :=
  String quote_char (escape_string s ++ String quote_char EmptyString).

(** [JSON.stringify(v)]; [None] is the [undefined] it returns for [undefined]. *)
Fixpoint json_stringify (v : jsv) : option string :=
  match v with
  | JUndef => None
  | JNull | JNaN => Some "null"
  | JBool b => Some (if b then "true" else "false")
  | JNum n => Some (z_to_string n)
  | JStr s => Some (json_quote s)
  | JArr l =>
      Some ("[" ++ str_concat ","
        ((fix go (l : list jsv) : list string :=
            match l with
            | [] => []
            | x :: r =>
                match json_stringify x with
                | Some s => s | None => "null" end :: go r
            end) l) ++ "]")
  | JObj l =>
      Some ("{" ++ str_concat ","
        ((fix go (l : list (string * jsv)) : list string :=
            match l with
            | [] => []
            | (k, x) :: r =>
                match json_stringify x with
                | Some s => (json_quote k ++ ":" ++ s) :: go r
                | None => go r
                end
            end) l) ++ "}")
  end.

Definition stringify_or_undef (v : jsv) : jsv :=
  match json_stringify v with Some s => JStr s | None => JUndef end.

(** Object literal update [{...o, k: v}]: an own key keeps its position. *)
Fixpoint obj_set (k : string) (v : jsv) (l : list (string * jsv))
  : list (string * jsv) :=
  match l with
  | [] => [(k, v)]
  | (k', w) :: r => if String.eqb k k' then (k', v) :: r else (k', w) :: obj_set k v r
  end.

Fixpoint index_fields {A} (f : A -> jsv) (i : Z) (l : list A) : list (string * jsv) :=
  match l with
  | [] => []
  | x :: r => (z_to_string i, f x) :: index_fields f (i + 1) r
  end.

Fixpoint string_chars (s : string) : list string :=
  match s with
  | EmptyString => []
  | String c s' => String c EmptyString :: string_chars s'
  end.

(** The own enumerable properties copied by the spread [{...v}]. *)
Definition spread (v : jsv) : list (string * jsv) :=
  match v with
  | JObj l => l
  | JArr l => index_fields (fun x => x) 0 l
  | JStr s => index_fields JStr 0 (string_chars s)
  | _ => []
  end.

(** ** HTTP and the server-action monad *)

(** A request handed to [fetch]; [req_body] is the value given to
    [JSON.stringify] for the body. *)
Record request := mk_request {
  req_url : string;
  req_method : string;
  req_headers : list (string * string);
  req_body : jsv }.

(** A response: its status, its [statusText] and what [res.json()] yields. *)
Record response := mk_response {
  res_status : Z;
  res_status_text : string;
  res_json : outcome jsv }.

Definition res_ok (r : response) : bool := (200 <=? res_status r) && (res_status r <=? 299).

(** Settlement of a [fetch] promise. *)
Inductive fetch_result :=
  | FetchResolved (r : response)
  | FetchRejected (e : exn).

(** The request-scoped Next.js cookie store and the requests sent so far. *)
Record store := mk_store {
  cookies : list (string * string);
  sent : list request }.

Definition M (A : Type) : Type := store -> outcome A * store.

Definition mret {A} (a : A) : M A := fun st => (Ret a, st).
Definition mthrow {A} (e : exn) : M A := fun st => (Throw e, st).
Definition mbind {A B} (m : M A) (k : A -> M B) : M B :=
  fun st => match m st with
            | (Ret a, st') => k a st'
            | (Throw e, st') => (Throw e, st')
            end.
Definition mlift {A} (c : outcome A) : M A := fun st => (c, st).

(** [try { m } catch (error) { h }] *)
Definition mtry {A} (m : M A) (h : exn -> M A) : M A :=
  fun st => match m st with
            | (Ret a, st') => (Ret a, st')
            | (Throw e, st') => h e st'
            end.

Notation "x <-- m ; k" := (mbind m (fun x => k))
  (at level 61, m at next level, right associativity).
Notation "m ;;; k" := (mbind m (fun _ => k)) (at level 61, right associativity).

Fixpoint cookie_lookup (name : string) (l : list (string * string)) : option string :=
  match l with
  | [] => None
  | (n, v) :: r => if String.eqb n name then Some v else cookie_lookup name r
  end.

(** [cookieStore.get(name)?.value] *)
Definition cookie_get (name : string) : M (option string) :=
  fun st => (Ret (cookie_lookup name (cookies st)), st).

(** [cookieStore.delete(name)] *)
Definition cookie_delete (name : string) : M unit :=
  fun st => (Ret tt,
    mk_store (filter (fun c => negb (String.eqb (fst c) name)) (cookies st)) (sent st)).

Section Fetch.
Variable backend : request -> fetch_result.

(** [await fetch(url, init)]: the request is issued, then the promise settles. *)
Definition do_fetch (rq : request) : M response :=
  fun st =>
    let st' := mk_store (cookies st) (sent st ++ [rq])%list in
    match backend rq with
    | FetchResolved r => (Ret r, st')
    | FetchRejected e => (Throw e, st')
    end.
End Fetch.

(** [settings.apiInternalUrl] interpolated in a template literal. *)
Definition opt_to_string (o : option string) : string :=
  match o with Some s => s | None => "undefined" end.

(** [a || "default"] for a string-valued setting. *)
Definition opt_or (o : option string) (d : string) : string :=
  match o with Some s => if String.eqb s EmptyString then d else s | None => d end.

(** ** [sendChat] (src/frontend/src/app/c/actions.js) *)

(** The object literal [{ success: false, error: { type, status, message } }]. *)
Definition err_result (type : string) (status : Z) (message : jsv) : jsv :=
  JObj [("success", JBool false);
        ("error", JObj [("type", JStr type); ("status", JNum status);
                        ("message", message)])].

Definition ok_result (data : jsv) : jsv :=
  JObj [("success", JBool true); ("data", data)].

Fixpoint map_outcome {A B} (f : A -> outcome B) (l : list A) : outcome (list B) :=
  match l with
  | [] => Ret []
  | x :: r => y <-? f x; ys <-? map_outcome f r; Ret (y :: ys)
  end.

(** The body of the inner [try] computing [errorDetails.message] from the
    parsed error body [errorData]. *)
Definition detail_message (errorData : jsv) : outcome jsv :=
  detail <-? get_prop errorData "detail";
  if is_object detail then
    dmsg <-? get_prop detail "message";
    if truthy dmsg then
      errs <-? get_prop detail "errors";
      match errs with
      | JArr l =>
          msgs <-? map_outcome (fun err => get_prop err "message") l;
          Ret (js_add dmsg
                 (JStr (" (" ++ str_concat ", " (map join_elem msgs) ++ ")")))
      | _ => Ret dmsg
      end
    else Ret (stringify_or_undef detail)
  else
    if truthy detail then Ret detail else get_prop errorData "message".

(** [errorDetails.message] after the inner [try]/[catch]. *)
Definition error_details_message (res : response) : jsv :=
  match (errorData <-? res_json res; detail_message errorData) with
  | Ret m => m
  | Throw _ => JStr ("Request failed with status " ++ z_to_string (res_status res))
  end.

(** The [catch (error)] of [sendChat]. *)
Definition chat_catch (error : exn) : jsv :=
  if String.eqb (exn_name error) "TypeError" && str_includes "fetch" (exn_message error)
  then err_result "NETWORK_ERROR" 503 (JStr "Unable to connect to server")
  else err_result "UNKNOWN_ERROR" 500
         (js_or (JStr (exn_message error)) (JStr "An unexpected error occurred")).

Section SendChat.
Variable backend : request -> fetch_result.
(** [settings.apiInternalUrl] *)
Variable api_internal_url : option string.
(** [Intl.DateTimeFormat().resolvedOptions().timeZone] on the server. *)
Variable server_tz : string.

Definition chat_url : string :=
  opt_or api_internal_url "http://backend:8000" ++ "/chat/message".

(** [{ ...payload, user_tz: payload.user_tz || tz }] *)
Definition chat_body (payload : jsv) : outcome jsv :=
  tz <-? get_prop payload "user_tz";
  Ret (JObj (obj_set "user_tz" (js_or tz (JStr server_tz)) (spread payload))).

Definition chat_request (session : string) (body : jsv) : request :=
  mk_request chat_url "POST"
    [("Content-Type", "application/json"); ("Cookie", "session=" ++ session)]
    body.

(** The [switch (res.status)] on a non-2xx response. *)
Definition chat_http_error (res : response) : M jsv :=
  let msg := error_details_message res in
  let st := res_status res in
  if st =? 401 then
    cookie_delete "session";;;
    cookie_delete "refresh_token";;;
    mret (err_result "AUTHENTICATION_FAILED" 401
            (JStr "Session expired. Please log in again."))
  else if st =? 403 then
    mret (err_result "FORBIDDEN" 403
            (js_or msg (JStr "Access denied. Insufficient permissions.")))
  else if st =? 422 then
    mret (err_result "VALIDATION_ERROR" 422 (js_or msg (JStr "Invalid request data.")))
  else if st =? 500 then
    mret (err_result "SERVER_ERROR" 500 (js_or msg (JStr "Server error occurred.")))
  else mret (err_result "HTTP_ERROR" st msg).

Definition sendChat (payload : jsv) : M jsv :=
  session <-- cookie_get "session";
  match session with
  | None | Some EmptyString =>
      mret (err_result "AUTHENTICATION_FAILED" 401
              (JStr "Not authenticated - session token missing"))
  | Some s =>
      mtry
        (body <-- mlift (chat_body payload);
         res <-- do_fetch backend (chat_request s body);
         if negb (res_ok res) then chat_http_error res
         else data <-- mlift (res_json res); mret (ok_result data))
        (fun error => mret (chat_catch error))
  end.
End SendChat.

(** ** The chat form handler (Chat.handleSubmit, src/unnamed/part_008) *)

(** Effects of the handler after [sendChat] settles. *)
Inductive ui_effect :=
  | UiAppend (m : jsv)
  (** [setTimeout(() => window.location.href = href, delay)] *)
  | UiTimeout (delay : Z) (href : string).

Definition assistant_msg (content : jsv) : jsv :=
  JObj [("role", JStr "assistant"); ("content", content)].

(** [JSON.stringify(errorPayload)] for the error bubble. *)
Definition error_bubble (status message retry : jsv) : jsv :=
  assistant_msg (stringify_or_undef
    (JObj [("type", JStr "error"); ("status", status); ("message", message);
           ("retryMessage", retry)])).

(** What [handleSubmit] does with the settlement [r] of [sendChat(payload)],
    [retry] being [payload.message]; its [catch] appends a generic error. *)
Definition handle_chat_result (retry : jsv) (r : outcome jsv) : list ui_effect :=
  let body :=
    result <-? r;
    success <-? get_prop result "success";
    if negb (truthy success) then
      error <-? get_prop result "error";
      errorMessage <-? get_prop error "message";
      ty <-? get_prop error "type";
      let redirect :=
        if is_str ty "AUTHENTICATION_FAILED" then [UiTimeout 3000 "/login"] else [] in
      status <-? get_prop error "status";
      Ret (redirect ++ [UiAppend (error_bubble status errorMessage retry)])%list
    else
      data <-? get_prop result "data";
      reply <-? get_prop data "reply";
      agent <-? get_prop data "agent";
      iid <-? get_prop data "interrupt_id";
      thinking <-? get_prop data "thinking_time";
      Ret [UiAppend (JObj [("role", JStr "assistant"); ("content", reply);
                           ("agent", agent); ("interrupt_id", iid);
                           ("thinkingTime", thinking)])] in
  match body with
  | Ret effs => effs
  | Throw _ =>
      [UiAppend (error_bubble (JNum 500)
         (JStr "An unexpected error occurred. Please try again.") retry)]
  end.

(** ** Helper facts about [sendChat] *)

Definition session_present (st : store) : option string :=
  match cookie_lookup "session" (cookies st) with
  | None | Some EmptyString => None
  | Some s => Some s
  end.

(** The settlement of the one [fetch] [sendChat] issues, if it issues one. *)
Definition chat_settlement (backend : request -> fetch_result)
    (url : option string) (tz : string) (payload : jsv) (st : store)
  : option fetch_result :=
  match session_present st with
  | None => None
  | Some s =>
      match chat_body tz payload with
      | Ret b => Some (backend (chat_request url s b))
      | Throw _ => None
      end
  end.

(** The error reaching the outer [catch] of [sendChat], if one is thrown:
    reading [payload.user_tz], the [fetch] itself, or [res.json()] on a 2xx
    response (the error path parses inside its own [try]). *)
Definition chat_thrown (backend : request -> fetch_result)
    (url : option string) (tz : string) (payload : jsv) (st : store)
  : option exn :=
  match session_present st with
  | None => None
  | Some s =>
      match chat_body tz payload with
      | Throw e => Some e
      | Ret b =>
          match backend (chat_request url s b) with
          | FetchRejected e => Some e
          | FetchResolved r =>
              if res_ok r then
                match res_json r with
                | Throw e => Some e
                | Ret _ => None
                end
              else None
          end
      end
  end.

Definition chat_error_types : list string :=
  ["AUTHENTICATION_FAILED"; "FORBIDDEN"; "VALIDATION_ERROR"; "SERVER_ERROR";
   "HTTP_ERROR"; "NETWORK_ERROR"; "UNKNOWN_ERROR"].

(** The type a non-2xx status is reported under. *)
Definition status_type (s : Z) : string :=
  if s =? 401 then "AUTHENTICATION_FAILED"
  else if s =? 403 then "FORBIDDEN"
  else if s =? 422 then "VALIDATION_ERROR"
  else if s =? 500 then "SERVER_ERROR"
  else "HTTP_ERROR".

Definition delete_auth_cookies (l : list (string * string)) : list (string * string) :=
  filter (fun c => negb (String.eqb (fst c) "refresh_token"))
    (filter (fun c => negb (String.eqb (fst c) "session")) l).

Definition allowed_error (t : string) (s : Z) : bool :=
  (String.eqb t "AUTHENTICATION_FAILED" && (s =? 401))
  || (String.eqb t "FORBIDDEN" && (s =? 403))
  || (String.eqb t "VALIDATION_ERROR" && (s =? 422))
  || (String.eqb t "SERVER_ERROR" && (s =? 500))
  || (String.eqb t "HTTP_ERROR" && negb (existsb (Z.eqb s) [401; 403; 422; 500]))
  || (String.eqb t "NETWORK_ERROR" && (s =? 503))
  || (String.eqb t "UNKNOWN_ERROR" && (s =? 500)).


(** ** Session middleware (src/unnamed/part_004) and [decrypt]
    (src/frontend/src/lib/filter.js) *)

Definition http_ws (c : ascii) : bool :=
  let n := nat_of_ascii c in
  Nat.eqb n 9 || Nat.eqb n 10 || Nat.eqb n 13 || Nat.eqb n 32.

Fixpoint strip_leading_ws (s : string) : string :=
  match s with
  | String c s' => if http_ws c then strip_leading_ws s' else s
  | EmptyString => EmptyString
  end.

Fixpoint str_rev (s : string) (acc : string) : string :=
  match s with
  | EmptyString => acc
  | String c s' => str_rev s' (String c acc)
  end.

(** Header-value normalisation: leading and trailing HTTP whitespace removed. *)
Definition normalize_header_value (s : string) : string :=
  str_rev (strip_leading_ws (str_rev (strip_leading_ws s) EmptyString)) EmptyString.

Fixpoint has_forbidden_header_char (s : string) : bool :=
  match s with
  | EmptyString => false
  | String c s' =>
      let n := nat_of_ascii c in
      Nat.eqb n 0 || Nat.eqb n 10 || Nat.eqb n 13 || has_forbidden_header_char s'
  end.

Fixpoint header_list_set (name value : string) (h : list (string * string))
  : list (string * string) :=
  match h with
  | [] => [(name, value)]
  | (n, v) :: r =>
      if String.eqb n name
      then (n, value) :: filter (fun p => negb (String.eqb (fst p) name)) r
      else (n, v) :: header_list_set name value r
  end.

(** [headers.set(name, value)] on a [Headers] object (lower-case names). *)
Definition headers_set (name value : string) (h : list (string * string))
  : outcome (list (string * string)) :=
  let v := normalize_header_value value in
  if has_forbidden_header_char v
  then Throw (type_error ("Headers.set: " ++ v ++ " is an invalid header value."))
  else Ret (header_list_set name v h).

Section Session.
(** [jwtVerify(token, key, { algorithms: ["HS256"] })] of jose: the payload
    of a token that verifies under the key, a thrown error otherwise. *)
Variable jwt_verify : string -> string -> outcome jsv.
(** [process.env.SESSION_SECRET] *)
Variable session_secret : option string.

Definition token_or_default (token : option string) : string :=
  match token with Some t => t | None => EmptyString end.

(** [decrypt(token = "")] *)
Definition decrypt (token : option string) : outcome jsv :=
  match session_secret with
  | None | Some EmptyString => Ret JNull
  | Some secret =>
      match jwt_verify (token_or_default token) secret with
      | Ret payload => Ret payload
      | Throw _ => Ret JNull
      end
  end.

(** The fields of the incoming [NextRequest] the middleware reads. *)
Record mw_request := mk_mw_request {
  pathname : string;
  session_cookie : option string;
  mw_headers : list (string * string) }.

(** [NextResponse.redirect(new URL(path, req.nextUrl))] or
    [NextResponse.next({ request: { headers } })]. *)
Inductive mw_response :=
  | MwRedirect (path : string)
  | MwNext (request_headers : list (string * string)).

Definition protectedRoutes : list string := ["/c"].
Definition publicRoutes : list string := ["/auth/login"; "/auth/register"].

Definition middleware (req : mw_request) : outcome mw_response :=
  let path := pathname req in
  let isProtectedRoute := existsb (String.eqb path) protectedRoutes in
  let isPublicRoute := existsb (String.eqb path) publicRoutes in
  session <-? decrypt (session_cookie req);
  let sub := opt_prop session "sub" in
  if isProtectedRoute && negb (truthy sub) then Ret (MwRedirect "/login")
  else if isPublicRoute && truthy sub then Ret (MwRedirect "/c")
  else
    headers <-? (if truthy sub
                 then headers_set "x-user-id" (to_string sub) (mw_headers req)
                 else Ret (mw_headers req));
    Ret (MwNext headers).
End Session.

(** ** Chat payload dispatcher (src/frontend/src/app/c/components/SpecialBubble.jsx) *)

(** What a button's [onClick] does, in order. *)
Inductive effect :=
  | SetDisabled (b : bool)
  (** [flushSync(() => setInput(v))] *)
  | SetInput (v : jsv)
  (** [document.getElementById(id)?.requestSubmit()] *)
  | RequestSubmit (form_id : string)
  (** [window.location.href = href] *)
  | Navigate (href : string)
  (** [window.open(url, "_blank")] *)
  | OpenWindow (url : jsv)
  (** [addMessage?.(m)] *)
  | AddMessage (m : jsv)
  (** An exception escaping the (async) handler. *)
  | Uncaught (e : exn)
  (** [const res = await sendChat(payload)], then the continuation. *)
  | SendChatThen (payload : jsv) (k : jsv -> list effect).

(** A rendered button: its text children and its click handler. *)
Record button := mk_button { btn_label : list string; btn_click : list effect }.

(** The element a [SpecialBubble] renders: a card of some kind with its
    buttons, or the plain markdown [ChatBubble]. *)
Inductive element :=
  | Card (kind : string) (buttons : list button)
  | Bubble (message : jsv).

Definition card_buttons (el : element) : list button :=
  match el with Card _ bs => bs | Bubble _ => [] end.

(** Rendering a value as React children: objects are not valid children. *)
Fixpoint render_text (v : jsv) : outcome (list string) :=
  match v with
  | JUndef | JNull | JBool _ => Ret []
  | JNum n => Ret [z_to_string n]
  | JNaN => Ret ["NaN"]
  | JStr s => Ret [s]
  | JArr l =>
      (fix go (l : list jsv) : outcome (list string) :=
         match l with
         | [] => Ret []
         | x :: r => a <-? render_text x; b <-? go r; Ret (a ++ b)%list
         end) l
  | JObj _ => Throw (mk_exn "Error" "Objects are not valid as a React child")
  end.

Definition text_node (v : jsv) : bool :=
  match render_text v with Ret _ => true | Throw _ => false end.

Definition submit_with (v : jsv) : list effect := [SetInput v; RequestSubmit "chat-form"].

Section Bubble.
(** [JSON.parse] *)
Variable json_parse : string -> outcome jsv.

(** [try { payload = JSON.parse(message.content) } catch { payload = null }] *)
Definition parse_content (message : jsv) : jsv :=
  match json_parse (to_string (opt_prop message "content")) with
  | Ret p => p
  | Throw _ => JNull
  end.

(** The slot buttons, shared by both versions of the component. *)
Definition slot_buttons (payload : jsv) (opts : list jsv) : outcome (list button) :=
  map_outcome
    (fun opt =>
       label <-? render_text opt;
       Ret (mk_button label
              (SetDisabled true ::
               submit_with (js_add (opt_prop payload "reply_template") opt))))
    opts.

(** [getErrorConfig(status)]: badge, description, whether to show "Log In"
    and whether to show "Try Again". *)
Definition error_config (status : jsv) : string * string * bool * bool :=
  if is_num status 401 then
    ("Unauthorized", "Your session has expired. Please log in again.", true, false)
  else if is_num status 403 then
    ("Forbidden", "You don't have permission to perform this action.", false, false)
  else if is_num status 422 then
    ("Validation Error", "Please check your input and try again.", false, true)
  else ("Error", "An unexpected error occurred.", false, true).

(** [a ?? b] *)
Definition js_nullish (a b : jsv) : jsv :=
  match a with JUndef | JNull => b | _ => a end.

Definition retry_click (payload : jsv) : list effect :=
  let retry := opt_prop payload "retryMessage" in
  if truthy retry then submit_with retry else [].

Definition doctor_buttons (disable : bool) (doctors : list jsv) : outcome (list button) :=
  map_outcome
    (fun doctor =>
       id <-? get_prop doctor "id";
       name <-? get_prop doctor "name";
       specialty <-? get_prop doctor "specialty";
       l1 <-? render_text name; l2 <-? render_text specialty;
       (* the separator is a middle dot *)
       Ret (mk_button (l1 ++ [" . "] ++ l2)%list
              ((if disable then [SetDisabled true] else []) ++
               submit_with (JStr ("I'd like to book with doctor_id " ++ to_string id
                                  ++ " (" ++ to_string name ++ ")")))%list))
    doctors.

(** The first [SpecialBubble] of the file (lines 16-522). *)
Definition render_v1 (isDisabled : bool) (message : jsv) : outcome element :=
  let payload := parse_content message in
  let ty := opt_prop payload "type" in
  let field := opt_prop payload in
  if isDisabled then Ret (Card "sent" [])
  else if is_str ty "error" && is_num (field "status") 500 then
    _ <-? render_text (js_or (field "message")
            (JStr "The server encountered an unexpected error. Please try again in a moment."));
    Ret (Card "server_error" [mk_button ["Try Again"] (retry_click payload)])
  else if is_str ty "error" && truthy (field "status") then
    let '(badge, description, showLogin, showRetry) := error_config (field "status") in
    _ <-? render_text (js_or (field "message") (JStr description));
    Ret (Card badge
      ((if showLogin then [mk_button ["Log In"] [Navigate "/login"]] else []) ++
       (if showRetry then [mk_button ["Try Again"] (retry_click payload)] else []))%list)
  else if is_str ty "booking_proposal" then
    _ <-? render_text (field "doctor_name");
    _ <-? render_text (field "proposed_starts_at_display");
    Ret (Card "booking_proposal"
      [mk_button ["Cancel"]
         (SetDisabled true :: submit_with (JStr "No, I don't want to book this appointment."));
       (* the label ends in a check-mark emoji *)
       mk_button ["Book It"]
         (SetDisabled true :: submit_with (JStr "Yes, please book this appointment."))])
  else match (if is_str ty "slots" then field "options" else JUndef) with
  | JArr opts =>
    _ <-? (if truthy (field "agent") then render_text (field "agent") else Ret []);
    _ <-? render_text (field "doctor");
    _ <-? render_text (field "specialty");
    buttons <-? slot_buttons payload opts;
    Ret (Card "slots" buttons)
  | _ =>
  match (if is_str ty "doctors" then field "doctors" else JUndef) with
  | JArr doctors =>
    _ <-? render_text (js_nullish (field "agent") (JStr "Scheduler"));
    _ <-? render_text (field "message");
    buttons <-? doctor_buttons true doctors;
    Ret (Card "doctors" buttons)
  | _ =>
  if is_str ty "appointment_confirmed" && truthy (field "appointment_id") then
    _ <-? render_text (js_or (field "agent") (JStr "Scheduler"));
    _ <-? render_text (field "doctor_name");
    _ <-? render_text (field "start_dt");
    _ <-? render_text (field "location");
    _ <-? render_text (field "appointment_id");
    let link := field "google_calendar_link" in
    _ <-? (if negb (truthy link) && truthy (field "google_calendar_invite_status")
           then render_text (field "google_calendar_invite_status") else Ret []);
    Ret (Card "appointment_confirmed"
      (if truthy link then [mk_button ["Open in Google Calendar"] [OpenWindow link]] else []))
  else if is_str ty "booking_conflict" then
    _ <-? render_text (js_or (field "agent") (JStr "Scheduler"));
    _ <-? render_text (js_or (field "message") (JStr "This time slot is already booked."));
    Ret (Card "booking_conflict"
      [mk_button ["Show Available Times"] (submit_with (JStr "Show me available times"))])
  else if is_str ty "booking_error" then
    _ <-? render_text (js_or (field "agent") (JStr "Scheduler"));
    _ <-? render_text (js_or (field "message")
            (JStr "An error occurred while booking the appointment."));
    Ret (Card "booking_error"
      [mk_button ["Try Again"] (submit_with (JStr "Help me book an appointment"))])
  else if is_str (field "status") "confirmed" && truthy (field "id") then
    _ <-? render_text (field "doctor_name");
    _ <-? render_text (field "start_dt");
    Ret (Card "confirmed" [])
  else if is_str ty "no_doctors" then
    _ <-? render_text (field "message");
    Ret (Card "no_doctors" [])
  else Ret (Bubble message)
  end end.

(** The follow-up [sendChat] argument of a confirm-booking button. *)
Definition resume_payload (text : string) (interrupt_id : jsv) (resume_value : string) : jsv :=
  JObj [("message", JStr text); ("interrupt_id", interrupt_id);
        ("resume_value", JStr resume_value)].

(** What the handler does once [sendChat] has settled with [res]. *)
Definition after_resume (text : string) (res : jsv) : list effect :=
  AddMessage (JObj [("role", JStr "user"); ("content", JStr text)]) ::
  match (reply <-? get_prop res "reply"; agent <-? get_prop res "agent";
         Ret (JObj [("role", JStr "assistant"); ("content", reply); ("agent", agent)])) with
  | Ret m => [AddMessage m]
  | Throw e => [Uncaught e]
  end.

Definition resume_click (message : jsv) (text resume_value : string) : list effect :=
  [SetDisabled true;
   SendChatThen (resume_payload text (opt_prop message "interrupt_id") resume_value)
     (after_resume text)].

(** The second [SpecialBubble] of the file (lines 539-741). *)
Definition render_v2 (isDisabled : bool) (message : jsv) : outcome element :=
  let payload := parse_content message in
  let ty := opt_prop payload "type" in
  let field := opt_prop payload in
  if isDisabled then Ret (Card "processing" [])
  else if is_str ty "confirm_booking" && truthy (field "doctor") && truthy (field "starts_at") then
    _ <-? render_text (field "doctor");
    _ <-? render_text (field "starts_at");
    Ret (Card "confirm_booking"
      [mk_button ["Cancel"] (resume_click message "No, I don't want to book this appointment." "no");
       (* the label ends in a check-mark emoji *)
       mk_button ["Book It"] (resume_click message "Yes, please book this appointment." "yes")])
  else match (if is_str ty "slots" then field "options" else JUndef) with
  | JArr opts =>
    _ <-? (if truthy (field "agent") then render_text (field "agent") else Ret []);
    _ <-? render_text (field "doctor");
    buttons <-? slot_buttons payload opts;
    Ret (Card "slots" buttons)
  | _ =>
  match (if is_str ty "doctors" then field "doctors" else JUndef) with
  | JArr doctors =>
    _ <-? render_text (js_nullish (field "agent") (JStr "Scheduler"));
    _ <-? render_text (field "message");
    buttons <-? doctor_buttons false doctors;
    Ret (Card "doctors" buttons)
  | _ =>
  if is_str (field "status") "confirmed" && truthy (field "id") then
    _ <-? render_text (field "doctor_name");
    _ <-? render_text (field "start_dt");
    Ret (Card "confirmed" [])
  else Ret (Bubble message)
  end end.
End Bubble.

(** A [JSON.parse] that reads back the one text [JSON.stringify(p)]. *)
Definition parse_only (p : jsv) (s : string) : outcome jsv :=
  if String.eqb s (to_string (stringify_or_undef p)) then Ret p
  else Throw (mk_exn "SyntaxError" "Unexpected token").

Definition slots_nine : jsv := JObj [("type", JStr "slots"); ("options", JArr [JNum 9])].

Definition slots_nine_message : jsv :=
  JObj [("role", JStr "assistant"); ("content", stringify_or_undef slots_nine)].

Definition confirm_payload : jsv :=
  JObj [("type", JStr "confirm_booking"); ("doctor", JStr "Dr. Lee");
        ("starts_at", JStr "2025-06-01T09:00")].

Definition confirm_message : jsv :=
  JObj [("role", JStr "assistant"); ("content", stringify_or_undef confirm_payload);
        ("interrupt_id", JStr "int-42")].

(** ** Schemas (src/unnamed/part_002) and the auth actions *)

(** A JavaScript string is held as its UTF-8 encoding.  [String.prototype.trim]
    (zod's [.trim()] too) removes the white space and line terminators of
    ECMAScript: U+0009 to U+000D and U+0020 (one byte each), U+00A0 (C2 A0),
    U+1680 (E1 9A 80), U+2000 to U+200A (E2 80 80 to E2 80 8A), U+2028 and
    U+2029 (E2 80 A8, E2 80 A9), U+202F (E2 80 AF), U+205F (E2 81 9F),
    U+3000 (E3 80 80) and U+FEFF (EF BB BF). *)
Definition js_ws (c : ascii) : bool :=
  let n := nat_of_ascii c in
  ((9 <=? n) && (n <=? 13))%nat || Nat.eqb n 32.

Definition js_ws2 (a b : ascii) : bool :=
  Nat.eqb (nat_of_ascii a) 194 && Nat.eqb (nat_of_ascii b) 160.

Definition js_ws3 (a b c : ascii) : bool :=
  let x := nat_of_ascii a in
  let y := nat_of_ascii b in
  let z := nat_of_ascii c in
  (Nat.eqb x 225 && Nat.eqb y 154 && Nat.eqb z 128)
  || (Nat.eqb x 226 && Nat.eqb y 128 &&
      (((128 <=? z) && (z <=? 138))%nat || Nat.eqb z 168 || Nat.eqb z 169 || Nat.eqb z 175))
  || (Nat.eqb x 226 && Nat.eqb y 129 && Nat.eqb z 159)
  || (Nat.eqb x 227 && Nat.eqb y 128 && Nat.eqb z 128)
  || (Nat.eqb x 239 && Nat.eqb y 187 && Nat.eqb z 191).

Fixpoint strip_leading_js_ws (s : string) : string :=
  match s with
  | EmptyString => EmptyString
  | String a s1 =>
      if js_ws a then strip_leading_js_ws s1 else
      match s1 with
      | EmptyString => s
      | String b s2 =>
          if js_ws2 a b then strip_leading_js_ws s2 else
          match s2 with
          | EmptyString => s
          | String c s3 => if js_ws3 a b c then strip_leading_js_ws s3 else s
          end
      end
  end.

(** The same on a string whose bytes are reversed. *)
Fixpoint strip_leading_js_ws_rev (s : string) : string :=
  match s with
  | EmptyString => EmptyString
  | String a s1 =>
      if js_ws a then strip_leading_js_ws_rev s1 else
      match s1 with
      | EmptyString => s
      | String b s2 =>
          if js_ws2 b a then strip_leading_js_ws_rev s2 else
          match s2 with
          | EmptyString => s
          | String c s3 => if js_ws3 c b a then strip_leading_js_ws_rev s3 else s
          end
      end
  end.

(** [s.trim()] *)
Definition js_trim (s : string) : string :=
  str_rev (strip_leading_js_ws_rev (str_rev (strip_leading_js_ws s) EmptyString)) EmptyString.

(** [s.length]: the UTF-16 code units of a UTF-8 string; continuation bytes
    (80 to BF) add none, a four-byte lead (F0 and up) adds two. *)
Fixpoint js_length (s : string) : nat :=
  match s with
  | EmptyString => O
  | String c s' =>
      let n := nat_of_ascii c in
      ((if ((128 <=? n) && (n <=? 191))%nat then O else if (240 <=? n)%nat then 2 else 1)
       + js_length s')%nat
  end.

Fixpoint assoc_set {A} (k : string) (v : A) (l : list (string * A)) : list (string * A) :=
  match l with
  | [] => [(k, v)]
  | (k', w) :: r => if String.eqb k k' then (k', v) :: r else (k', w) :: assoc_set k v r
  end.

Fixpoint assoc_get {A} (k : string) (l : list (string * A)) : option A :=
  match l with
  | [] => None
  | (k', v) :: r => if String.eqb k k' then Some v else assoc_get k r
  end.

(** [Object.fromEntries(formData)]: a repeated name keeps its first position
    and its last value. *)
Definition from_entries {A} (entries : list (string * A)) : list (string * A) :=
  fold_left (fun acc kv => assoc_set (fst kv) (snd kv) acc) entries [].

(** [error.flatten().fieldErrors], as an object of message arrays. *)
Definition field_errors_obj (fe : list (string * list string)) : jsv :=
  JObj (map (fun kv => (fst kv, JArr (map JStr (snd kv)))) fe).

(** Collects one field's messages, in issue order. *)
Definition field_issue (k : string) (msgs : list string) : list (string * list string) :=
  match msgs with [] => [] | _ => [(k, msgs)] end.

(** [z.string().trim()] followed by checks: the messages of the failed checks,
    "Required" for a missing key. *)
Definition zstr_checks (v : option string) (checks : list ((string -> bool) * string))
  : list string :=
  match v with
  | None => ["Required"]
  | Some s =>
      let t := js_trim s in
      flat_map (fun c : (string -> bool) * string =>
                  if fst c t then [] else [snd c]) checks
  end.

(** zod's [.min(n)] and [.max(n)], on [s.length]. *)
Definition min_len (n : nat) (s : string) : bool := (n <=? js_length s)%nat.
Definition max_len (n : nat) (s : string) : bool := (js_length s <=? n)%nat.

Section Login.
Variable backend : request -> fetch_result.
Variable api_internal_url : option string.
(** Zod's e-mail pattern check. *)
Variable zod_email : string -> bool.

(** [loginSchema.safeParse(data)] on the text fields of a form: the trimmed
    [(email, password)] on success, the field errors otherwise.  An
    unrecognized key ([.strict()]) fails the parse with an issue at path [[]],
    which [flatten] files under [formErrors], not [fieldErrors]. *)
Definition login_schema_parse (data : list (string * string))
  : (list (string * list string)) + (string * string) :=
  let email := assoc_get "email" data in
  let password := assoc_get "password" data in
  let e_msgs := zstr_checks email [(zod_email, "Invalid email address")] in
  let p_msgs := zstr_checks password
      [(min_len 8, "Password must be at least 8 characters");
       (max_len 128, "Password must be at most 128 characters")] in
  let unknown := existsb (fun kv => negb (String.eqb (fst kv) "email" || String.eqb (fst kv) "password")) data in
  match e_msgs, p_msgs, unknown, email, password with
  | [], [], false, Some e, Some p => inr (js_trim e, js_trim p)
  | _, _, _, _, _ => inl (field_issue "email" e_msgs ++ field_issue "password" p_msgs)%list
  end.

(** What a server action ends in: a returned value, or [redirect(path)]. *)
Inductive action_result :=
  | ActReturn (v : jsv)
  | ActRedirect (path : string).

Definition login_request (email password : string) : request :=
  mk_request (opt_to_string api_internal_url ++ "/auth/login") "POST"
    [("Content-Type", "application/json")]
    (JObj [("email", JStr email); ("password", JStr password)]).

(** [await res.json().catch(() => ({}))] *)
Definition json_or_empty (r : response) : jsv :=
  match res_json r with Ret b => b | Throw _ => JObj [] end.

(** [login(formData)] (src/frontend/src/app/auth/login/actions.js). *)
Definition login (form : list (string * string)) : M action_result :=
  match login_schema_parse (from_entries form) with
  | inl fe => mret (ActReturn (JObj [("errors", field_errors_obj fe)]))
  | inr (email, password) =>
      res <-- do_fetch backend (login_request email password);
      if res_ok res then mret (ActRedirect "/c")
      else
        let body := json_or_empty res in
        if res_status res =? 500 then
          mret (ActReturn (JObj [("errors", JStr "Server error occurred. Please try again later.");
                                 ("status", JNum 500)]))
        else
          detail <-- mlift (get_prop body "detail");
          mret (ActReturn (JObj [("errors", js_or detail (JStr "Invalid credentials"));
                                 ("status", JNum (res_status res))]))
  end.
End Login.

(** A backend whose every request is answered with one response. *)
Definition answer_with (status : Z) (text : string) (body : outcome jsv) : request -> fetch_result :=
  fun _ => FetchResolved (mk_response status text body).

Definition empty_store : store := mk_store [] [].

(** *** [Date.prototype.toISOString] *)

Definition ms_per_day : Z := 86400000.

(** Day number to proleptic Gregorian (year, month, day), computed through
    the day of the 400-year era [doe] (civil-from-days method). *)
Definition doe_yoe (doe : Z) : Z := (doe - doe / 1460 + doe / 36524 - doe / 146096) / 365.
Definition doe_doy (doe : Z) : Z :=
  let yoe := doe_yoe doe in doe - (365 * yoe + yoe / 4 - yoe / 100).
Definition doe_mp (doe : Z) : Z := (5 * doe_doy doe + 2) / 153.
Definition doe_day (doe : Z) : Z := doe_doy doe - (153 * doe_mp doe + 2) / 5 + 1.
Definition doe_month (doe : Z) : Z :=
  let mp := doe_mp doe in if mp <? 10 then mp + 3 else mp - 9.

Definition civil_from_days (days : Z) : Z * Z * Z :=
  let z := days + 719468 in
  let era := z / 146097 in
  let doe := z - era * 146097 in
  let y := doe_yoe doe + era * 400 in
  let m := doe_month doe in
  ((if m <=? 2 then y + 1 else y), m, doe_day doe).

Fixpoint zeros (n : nat) : string :=
  match n with O => EmptyString | S k => String "0" (zeros k) end.

(** [%0wd] for [n >= 0]. *)
Definition pad_zeros (w : nat) (n : Z) : string :=
  let s := z_to_string n in zeros (w - String.length s) ++ s.

(** Four digits for years 0 to 9999, otherwise a sign and six digits. *)
Definition iso_year_text (y : Z) : string :=
  if (0 <=? y) && (y <=? 9999) then pad_zeros 4 y
  else if y <? 0 then "-" ++ pad_zeros 6 (- y)
  else "+" ++ pad_zeros 6 y.

(** The UTC year of a time value. *)
Definition utc_year (t : Z) : Z := fst (fst (civil_from_days (t / ms_per_day))).

Definition to_iso_string (t : Z) : string :=
  let ms := t mod ms_per_day in
  let '(y, m, d) := civil_from_days (t / ms_per_day) in
  iso_year_text y ++ "-" ++ pad_zeros 2 m ++ "-" ++ pad_zeros 2 d ++ "T" ++
  pad_zeros 2 (ms / 3600000) ++ ":" ++ pad_zeros 2 (ms / 60000 mod 60) ++ ":" ++
  pad_zeros 2 (ms / 1000 mod 60) ++ "." ++ pad_zeros 3 (ms mod 1000) ++ "Z".

Definition is_digit (c : ascii) : bool :=
  let n := nat_of_ascii c in ((48 <=? n) && (n <=? 57))%nat.

(** The text shape YYYY-MM-DD. *)
Definition ymd_shape (s : string) : bool :=
  match list_ascii_of_string s with
  | [y1; y2; y3; y4; h1; m1; m2; h2; d1; d2] =>
      is_digit y1 && is_digit y2 && is_digit y3 && is_digit y4 &&
      Ascii.eqb h1 "-" && is_digit m1 && is_digit m2 &&
      Ascii.eqb h2 "-" && is_digit d1 && is_digit d2
  | _ => false
  end.

(** *** Register *)

(** A submitted form value: a string, a [Date] (its time value) or
    [undefined]. *)
Inductive fval :=
  | FStr (s : string)
  | FDate (t : Z)
  | FUndef.

(** The largest time value a [Date] holds. *)
Definition max_time : Z := 8640000000000000.

Section Register.
Variable backend : request -> fetch_result.
Variable api_internal_url : option string.
Variable zod_email : string -> bool.
(** [Date.parse], as used by [new Date(string)]; [None] is [NaN]. *)
Variable date_parse : string -> option Z.
(** [result.error.flatten().fieldErrors] of a failed registration parse. *)
Variable register_field_errors : list (string * fval) -> jsv.

(** [z.string().trim()] with checks. *)
Definition zstr (v : option fval) (checks : list (string -> bool)) : option string :=
  match v with
  | Some (FStr s) => let t := js_trim s in if forallb (fun c => c t) checks then Some t else None
  | _ => None
  end.

(** [z.enum(opts)] *)
Definition zenum (v : option fval) (opts : list string) : option string :=
  match v with
  | Some (FStr s) => if existsb (String.eqb s) opts then Some s else None
  | _ => None
  end.

(** [z.coerce.date()]: [new Date(v)], rejected when invalid. *)
Definition zcoerce_date (v : option fval) : option Z :=
  let t := match v with
           | Some (FDate t) => Some t
           | Some (FStr s) => date_parse s
           | _ => None
           end in
  match t with
  | Some t => if Z.abs t <=? max_time then Some t else None
  | None => None
  end.

(** [role: z.enum([...]).optional()]: an absent key stays absent, a present
    [undefined] is kept. *)
Definition zrole (v : option fval) : option (list (string * fval)) :=
  match v with
  | None => Some []
  | Some FUndef => Some [("role", FUndef)]
  | Some _ => option_map (fun r => [("role", FStr r)]) (zenum v ["doctor"; "patient"; "admin"])
  end.

Definition register_keys : list string :=
  ["email"; "password"; "first_name"; "last_name"; "sex"; "phone"; "address"; "dob";
   "role"; "repeat_password"].

(** [registerSchema.safeParse(data)]: the parsed object, its keys in the
    order of the schema. *)
Definition register_schema_parse (data : list (string * fval))
  : option (list (string * fval)) :=
  let g k := assoc_get k data in
  match zstr (g "email") [zod_email], zstr (g "password") [min_len 8],
        zstr (g "first_name") [min_len 1], zstr (g "last_name") [min_len 1],
        zenum (g "sex") ["M"; "F"], zstr (g "phone") [min_len 1],
        zstr (g "address") [min_len 1], zcoerce_date (g "dob"), zrole (g "role"),
        zstr (g "repeat_password") [min_len 8] with
  | Some e, Some p, Some fn, Some ln, Some sx, Some ph, Some ad, Some t, Some role, Some rp =>
      if forallb (fun kv => existsb (String.eqb (fst kv)) register_keys) data
         && String.eqb p rp
      then Some ([("email", FStr e); ("password", FStr p); ("first_name", FStr fn);
                  ("last_name", FStr ln); ("sex", FStr sx); ("phone", FStr ph);
                  ("address", FStr ad); ("dob", FDate t)] ++ role ++
                 [("repeat_password", FStr rp)])%list
      else None
  | _, _, _, _, _, _, _, _, _, _ => None
  end.

(** The value [JSON.stringify] sees ([Date]s through [toJSON]). *)
Definition fval_json (v : fval) : jsv :=
  match v with
  | FStr s => JStr s
  | FDate t => JStr (to_iso_string t)
  | FUndef => JUndef
  end.

Definition data_get (k : string) (data : list (string * fval)) : fval :=
  match assoc_get k data with Some v => v | None => FUndef end.

(** [const { repeat_password, sex, first_name, last_name, dob, phone, address, ...rest } = data] *)
Definition register_rest (data : list (string * fval)) : list (string * fval) :=
  filter (fun kv => negb (existsb (String.eqb (fst kv))
    ["repeat_password"; "sex"; "first_name"; "last_name"; "dob"; "phone"; "address"])) data.

(** [dob.toISOString()] *)
Definition fval_iso (v : fval) : outcome string :=
  match v with
  | FDate t => Ret (to_iso_string t)
  | _ => Throw (type_error "dob.toISOString is not a function")
  end.

Definition register_payload (data : list (string * fval)) : outcome jsv :=
  iso <-? fval_iso (data_get "dob" data);
  let f k := fval_json (data_get k data) in
  Ret (JObj (obj_set "patient_profile"
    (JObj [("sex", f "sex"); ("first_name", f "first_name"); ("last_name", f "last_name");
           ("dob", JStr (str_slice 10 iso)); ("phone", f "phone"); ("address", f "address")])
    (map (fun kv => (fst kv, fval_json (snd kv))) (register_rest data)))).

Definition register_request (payload : jsv) : request :=
  mk_request (opt_to_string api_internal_url ++ "/auth/register") "POST"
    [("Content-Type", "application/json")] payload.

(** [register(formData)] (src/frontend/src/app/auth/register/actions.js). *)
Definition register (data : list (string * fval)) : M action_result :=
  match register_schema_parse data with
  | None => mret (ActReturn (JObj [("errors", register_field_errors data)]))
  | Some parsed =>
      payload <-- mlift (register_payload parsed);
      res <-- do_fetch backend (register_request payload);
      if res_ok res then mret (ActRedirect "/login")
      else
        let err := json_or_empty res in
        detail <-- mlift (get_prop err "detail");
        mret (ActReturn (JObj [("errors", JObj [("api",
          JArr [js_or detail (JStr (res_status_text res))])])]))
  end.
End Register.

(** [all_from f z n]: [f] holds at z, z + 1, ..., z + n - 1. *)
Fixpoint all_from (f : Z -> bool) (z : Z) (n : nat) : bool :=
  match n with
  | O => true
  | S k => if f z then all_from f (z + 1) k else false
  end.

Definition four_digits (s : string) : bool :=
  match list_ascii_of_string s with
  | [a; b; c; d] => is_digit a && is_digit b && is_digit c && is_digit d
  | _ => false
  end.

Definition two_digits (s : string) : bool :=
  match list_ascii_of_string s with
  | [a; b] => is_digit a && is_digit b
  | _ => false
  end.

(** A schema-valid registration: a date of birth of 10000-01-01 (UTC). *)
Definition reg_form (dob : Z) : list (string * fval) :=
  [("first_name", FStr "Ann"); ("last_name", FStr "Lee"); ("sex", FStr "F");
   ("dob", FDate dob); ("email", FStr "ann@example.com"); ("password", FStr "correct-horse");
   ("repeat_password", FStr "correct-horse"); ("phone", FStr "555-0100");
   ("address", FStr "1 Main St")].

(** What [registerSchema] makes of [reg_form dob]. *)
Definition reg_parsed (dob : Z) : list (string * fval) :=
  [("email", FStr "ann@example.com"); ("password", FStr "correct-horse");
   ("first_name", FStr "Ann"); ("last_name", FStr "Lee"); ("sex", FStr "F");
   ("phone", FStr "555-0100"); ("address", FStr "1 Main St"); ("dob", FDate dob);
   ("repeat_password", FStr "correct-horse")].

(** [fetch] of a URL that does not parse rejects with a TypeError that does
    not mention "fetch". *)
Definition url_checking_backend (rq : request) : fetch_result :=
  if str_includes " " (req_url rq)
  then FetchRejected (type_error ("Failed to parse URL from " ++ req_url rq))
  else FetchResolved (mk_response 200 "OK" (Ret (JObj [("reply", JStr "ok")]))).

(** Whether the one [fetch] of [sendChat] was answered with a 401. *)
Definition got_401 backend url tz payload st : bool :=
  match chat_settlement backend url tz payload st with
  | Some (FetchResolved r) => res_status r =? 401
  | _ => false
  end.

(** ** Further server helpers *)

(** [filterFormData(formData)] (src/frontend/src/lib/filter.js): the entries
    whose name does not start with "$", through [Object.fromEntries]. *)
Definition filterFormData {A} (entries : list (string * A)) : list (string * A) :=
  from_entries (filter (fun kv => negb (str_prefix "$" (fst kv))) entries).

(** [deleteSession()] (src/frontend/src/lib/filter.js) *)
Definition deleteSession : M unit := cookie_delete "session".

(** [logout()] (src/frontend/src/app/c/actions.js) *)
Definition logout : M action_result :=
  cookie_delete "session";;;
  cookie_delete "refresh_token";;;
  mret (ActRedirect "/login").

(** [cookieList.map(({ name, value }) => `${name}=${value}`).join('; ')] *)
Definition cookie_header (cs : list (string * string)) : string :=
  str_concat "; " (map (fun c => fst c ++ "=" ++ snd c) cs).

Section GetUser.
Variable backend : request -> fetch_result.
Variable api_internal_url : option string.

(** The [fetch] of [getUser]: a GET (the default method) without a body. *)
Definition me_request (cookieHeader : string) : request :=
  mk_request (opt_to_string api_internal_url ++ "/auth/me") "GET"
    [("Cookie", cookieHeader)] JUndef.

(** [getUser()] (src/frontend/src/lib/filter.js) *)
Definition getUser : M jsv :=
  fun st =>
    let cookieHeader := cookie_header (cookies st) in
    mtry (res <-- do_fetch backend (me_request cookieHeader);
          if negb (res_ok res) then mret JNull
          else mlift (res_json res))
         (fun _ => mret JNull) st.
End GetUser.

(** What [Chat.handleSubmit] does, in order. *)
Inductive submit_effect :=
  | SubAppend (m : jsv)
  (** [setInput("")] *)
  | SubClearInput
  (** [setIsThinking(b)] *)
  | SubThinking (b : bool)
  (** an effect of the result handling *)
  | SubUi (u : ui_effect).

(** [Chat.handleSubmit] (src/unnamed/part_008, lines 15-98) on the current
    [input]; [browser_tz] is the browser's
    [Intl.DateTimeFormat().resolvedOptions().timeZone] and [sendChat] runs with
    the server-side [backend], [url] and [server_tz]. *)
Definition handleSubmit (backend : request -> fetch_result) (url : option string)
    (server_tz : string) (browser_tz : jsv) (input : string) : M (list submit_effect) :=
  if String.eqb (js_trim input) EmptyString then mret []
  else
    let userMsg := JObj [("role", JStr "user"); ("content", JStr input)] in
    let payload := JObj [("message", JStr input); ("user_tz", browser_tz)] in
    fun st =>
      let '(r, st') := sendChat backend url server_tz payload st in
      (Ret ([SubAppend userMsg; SubClearInput; SubThinking true] ++
            map SubUi (handle_chat_result (opt_prop payload "message") r) ++
            [SubThinking false])%list, st').

(** The number of messages appended by a list of effects. *)
Definition appended (effs : list ui_effect) : nat :=
  length (filter (fun u => match u with UiAppend _ => true | _ => false end) effs).

(** The error payload [Chat.handleSubmit] stores for a failed [sendChat]. *)
Definition error_payload (status message retry : jsv) : jsv :=
  JObj [("type", JStr "error"); ("status", status); ("message", message);
        ("retryMessage", retry)].

(** A doctor entry [{ id, name, specialty }] of a [doctors] payload. *)
Definition doctor_json (d : string * string * string) : jsv :=
  let '(i, n, sp) := d in JObj [("id", JStr i); ("name", JStr n); ("specialty", JStr sp)].

Definition doctor_input (d : string * string * string) : string :=
  let '(i, n, _) := d in "I'd like to book with doctor_id " ++ i ++ " (" ++ n ++ ")".

Definition doctor_label (d : string * string * string) : list string :=
  let '(_, n, sp) := d in [n; " . "; sp].

(** ** [RegisterForm.onSubmit] (src/frontend/src/app/auth/register/Form.jsx) *)

(** The element read [v[0]]. *)
Definition get_index0 (v : jsv) : outcome jsv :=
  match v with
  | JArr (x :: _) => Ret x
  | JArr [] => Ret JUndef
  | JStr (String c _) => Ret (JStr (String c EmptyString))
  | JStr EmptyString => Ret JUndef
  | _ => get_prop v "0"
  end.

(** [const result = await register(data); if (result.errors)
    toast.error(result.errors.api[0] || "Registration failed")]: the text
    given to [toast.error], if any.  A [redirect] of the action navigates
    away and the code after the [await] does not run. *)
Definition onSubmit (res : action_result) : outcome (option jsv) :=
  match res with
  | ActRedirect _ => Ret None
  | ActReturn result =>
      errors <-? get_prop result "errors";
      if truthy errors then
        api <-? get_prop errors "api";
        first <-? get_index0 api;
        Ret (Some (js_or first (JStr "Registration failed")))
      else Ret None
  end.

(** * Proofs *)

(** ** sendChat *)

Lemma sendChat_eq backend url tz payload st :
  sendChat backend url tz payload st =
  match session_present st with
  | None =>
      (Ret (err_result "AUTHENTICATION_FAILED" 401
              (JStr "Not authenticated - session token missing")), st)
  | Some s =>
      match chat_body tz payload with
      | Throw e => (Ret (chat_catch e), st)
      | Ret b =>
          let st1 := mk_store (cookies st) (sent st ++ [chat_request url s b])%list in
          match backend (chat_request url s b) with
          | FetchRejected e => (Ret (chat_catch e), st1)
          | FetchResolved r =>
              if res_ok r then
                match res_json r with
                | Ret d => (Ret (ok_result d), st1)
                | Throw e => (Ret (chat_catch e), st1)
                end
              else chat_http_error r st1
          end
      end
  end.
Proof.
  unfold sendChat, session_present, mbind, cookie_get.
  destruct (cookie_lookup "session" (cookies st)) as [[|c s]|]; try reflexivity.
  unfold mtry, mlift, mret, do_fetch.
  destruct (chat_body tz payload) as [b|e]; try reflexivity.
  destruct (backend (chat_request url (String c s) b)) as [r|e]; try reflexivity.
  destruct (res_ok r); simpl; [destruct (res_json r); reflexivity|].
  unfold chat_http_error, mbind, cookie_delete, mret.
  repeat (destruct (_ =? _); try reflexivity).
Qed.

Example sendChat_404 :
  fst (sendChat (fun _ => FetchResolved (mk_response 404 "Not Found" (Ret (JObj [("detail", JStr "Not Found")]))))
         None "UTC" (JObj [("message", JStr "hi")])
         (mk_store [("session", "tok")] [])) =
  Ret (err_result "HTTP_ERROR" 404 (JStr "Not Found")).
Proof. reflexivity. Qed.

Example sendChat_422 :
  fst (sendChat (fun _ => FetchResolved (mk_response 422 "Unprocessable"
          (Ret (JObj [("detail", JObj [("message", JStr "bad");
                                       ("errors", JArr [JObj [("message", JStr "x")]; JNum 3])])]))))
         None "UTC" (JObj [("message", JStr "hi")])
         (mk_store [("session", "tok")] [])) =
  Ret (err_result "VALIDATION_ERROR" 422 (JStr "bad (x, )")).
Proof. reflexivity. Qed.

Lemma chat_http_error_eq r st :
  exists m,
  chat_http_error r st =
  (Ret (err_result (status_type (res_status r)) (res_status r) m),
   if res_status r =? 401 then mk_store (delete_auth_cookies (cookies st)) (sent st)
   else st).
Proof.
  unfold chat_http_error, status_type, mbind, cookie_delete, mret.
  destruct (res_status r =? 401) eqn:E401.
  - apply Z.eqb_eq in E401. rewrite E401. eexists. reflexivity.
  - destruct (res_status r =? 403) eqn:E403;
      [apply Z.eqb_eq in E403; rewrite E403; eexists; reflexivity|].
    destruct (res_status r =? 422) eqn:E422;
      [apply Z.eqb_eq in E422; rewrite E422; eexists; reflexivity|].
    destruct (res_status r =? 500) eqn:E500;
      [apply Z.eqb_eq in E500; rewrite E500; eexists; reflexivity|].
    eexists; reflexivity.
Qed.

Lemma chat_catch_shape e :
  chat_catch e =
  if String.eqb (exn_name e) "TypeError" && str_includes "fetch" (exn_message e)
  then err_result "NETWORK_ERROR" 503 (JStr "Unable to connect to server")
  else err_result "UNKNOWN_ERROR" 500
         (js_or (JStr (exn_message e)) (JStr "An unexpected error occurred")).
Proof. reflexivity. Qed.



Lemma chat_catch_allowed e :
  exists t s m, chat_catch e = err_result t s m /\ In t chat_error_types /\
                allowed_error t s = true.
Proof.
  rewrite chat_catch_shape.
  destruct (_ && _); do 3 eexists; (split; [reflexivity| split; [simpl; tauto | reflexivity]]).
Qed.





(** C3 (amended).  [sendChat] never throws: it always settles with a
    returned object, which is a success only for a 2xx response whose body
    parses, and otherwise has the shape [{success: false, error: {type,
    status, message}}].  A rejected [fetch] becomes NETWORK_ERROR with status
    503 exactly when it is a TypeError whose message contains "fetch" (as
    Node's "fetch failed"); any other thrown error becomes UNKNOWN_ERROR with
    status 500.  Every error thrown inside the [try] ([chat_thrown]: reading
    [payload.user_tz], the [fetch], or parsing a 2xx body) goes through this
    one rule, UNKNOWN_ERROR carrying [error.message || "An unexpected error
    occurred"]. *)
Theorem sendChat_never_throws backend url tz payload st :
  exists v, fst (sendChat backend url tz payload st) = Ret v /\
  ((exists r d, chat_settlement backend url tz payload st = Some (FetchResolved r) /\
                res_ok r = true /\ res_json r = Ret d /\ v = ok_result d) \/
   (exists t s m, v = err_result t s m)) /\
  (forall e, chat_settlement backend url tz payload st = Some (FetchRejected e) ->
     if String.eqb (exn_name e) "TypeError" && str_includes "fetch" (exn_message e)
     then v = err_result "NETWORK_ERROR" 503 (JStr "Unable to connect to server")
     else exists m, v = err_result "UNKNOWN_ERROR" 500 m) /\
  (forall e, chat_thrown backend url tz payload st = Some e ->
     v = if String.eqb (exn_name e) "TypeError" && str_includes "fetch" (exn_message e)
         then err_result "NETWORK_ERROR" 503 (JStr "Unable to connect to server")
         else err_result "UNKNOWN_ERROR" 500
                (js_or (JStr (exn_message e)) (JStr "An unexpected error occurred"))).
Proof.
  rewrite sendChat_eq. unfold chat_settlement, chat_thrown.
  destruct (session_present st) as [s|].
  2:{ eexists; split; [reflexivity|].
      split; [right; eauto | split; intros; discriminate]. }
  destruct (chat_body tz payload) as [b|e].
  2:{ destruct (chat_catch_allowed e) as (t & s' & m & He & _).
      eexists; split; [reflexivity|].
      split; [right; eauto | split; [intros; discriminate|]].
      intros e' He'; injection He' as <-. reflexivity. }
  destruct (backend (chat_request url s b)) as [r|e] eqn:Eb.
  - destruct (res_ok r) eqn:Eok.
    + destruct (res_json r) as [d|e] eqn:Ej.
      * eexists; split; [reflexivity|].
        split; [left; exists r, d; auto | split; intros; discriminate].
      * destruct (chat_catch_allowed e) as (t & s' & m & He & _).
        eexists; split; [reflexivity|].
        split; [right; eauto | split; [intros; discriminate|]].
        intros e' He'; injection He' as <-. reflexivity.
    + destruct (chat_http_error_eq r
                  (mk_store (cookies st) (sent st ++ [chat_request url s b])%list))
        as [m Hm].
      rewrite Hm. eexists; split; [reflexivity|].
      split; [right; eauto | split; intros; discriminate].
  - eexists; split; [reflexivity|].
    split; [destruct (chat_catch_allowed e) as (t & s' & m & He & _); right; eauto|].
    split.
    + intros e' He'; injection He' as <-.
      rewrite chat_catch_shape. destruct (_ && _); [reflexivity | eexists; reflexivity].
    + intros e' He'; injection He' as <-. reflexivity.
Qed.

Lemma sendChat_never_throws_witness :
  exists v, fst (sendChat (fun _ => FetchRejected (type_error "fetch failed")) None "UTC"
                  (JObj [("message", JStr "hi")]) (mk_store [("session", "tok")] [])) = Ret v.
Proof.
  destruct (sendChat_never_throws (fun _ => FetchRejected (type_error "fetch failed"))
              None "UTC" (JObj [("message", JStr "hi")]) (mk_store [("session", "tok")] []))
    as (v & Hv & _).
  exists v. exact Hv.
Defined.

(** The C3 claim read literally fails: a TypeError rejected by [fetch] is
    reported as UNKNOWN_ERROR with status 500, not NETWORK_ERROR with 503. *)
Lemma sendChat_fetch_typeerror_unknown :
  fst (sendChat url_checking_backend (Some "http://backend :8000") "UTC"
         (JObj [("message", JStr "hi")]) (mk_store [("session", "tok")] [])) =
  Ret (err_result "UNKNOWN_ERROR" 500
         (JStr "Failed to parse URL from http://backend :8000/chat/message")).
Proof. reflexivity. Qed.

(** ** The 401 side effect and the missing-session short circuit *)

Lemma handle_err_redirect retry t s m :
  In (UiTimeout 3000 "/login") (handle_chat_result retry (Ret (err_result t s m))) <->
  t = "AUTHENTICATION_FAILED".
Proof.
  unfold handle_chat_result; simpl.
  destruct (String.eqb t "AUTHENTICATION_FAILED") eqn:E.
  - apply String.eqb_eq in E. simpl. intuition.
  - apply String.eqb_neq in E. simpl. intuition discriminate.
Qed.

Lemma handle_ok_no_redirect retry d :
  ~ In (UiTimeout 3000 "/login") (handle_chat_result retry (Ret (ok_result d))).
Proof.
  unfold handle_chat_result; simpl.
  destruct d; simpl; intuition discriminate.
Qed.

Lemma status_type_auth s : status_type s = "AUTHENTICATION_FAILED" <-> s = 401.
Proof.
  unfold status_type. split.
  - destruct (s =? 401) eqn:E1; [intros _; apply Z.eqb_eq; exact E1|].
    destruct (s =? 403); [discriminate|].
    destruct (s =? 422); [discriminate|].
    destruct (s =? 500); discriminate.
  - intros ->. reflexivity.
Qed.

Lemma chat_catch_no_redirect retry e :
  ~ In (UiTimeout 3000 "/login") (handle_chat_result retry (Ret (chat_catch e))).
Proof.
  rewrite chat_catch_shape. destruct (_ && _); rewrite handle_err_redirect; discriminate.
Qed.

(** C4.  With a session cookie present, [sendChat] changes the cookie store
    only when the backend answers 401, and then deletes exactly the
    "session" and "refresh_token" cookies; and the chat handler schedules the
    redirect to "/login" exactly in that case.  Every other outcome (403, 422,
    500, any other status, a 2xx, a rejected [fetch]) leaves the cookies as
    they were and schedules nothing. *)
Theorem sendChat_401_only_side_effect backend url tz payload st s retry :
  session_present st = Some s ->
  let (r, st') := sendChat backend url tz payload st in
  cookies st' = (if got_401 backend url tz payload st
                 then delete_auth_cookies (cookies st) else cookies st) /\
  (In (UiTimeout 3000 "/login") (handle_chat_result retry r) <->
   got_401 backend url tz payload st = true).
Proof.
  intros Hs. rewrite sendChat_eq. unfold got_401, chat_settlement. rewrite Hs.
  destruct (chat_body tz payload) as [b|e].
  2:{ split; [reflexivity|]. split; [intro H; exfalso; revert H; apply chat_catch_no_redirect
                                    | discriminate]. }
  destruct (backend (chat_request url s b)) as [r|e].
  - destruct (res_ok r) eqn:Eok.
    + assert (H401 : (res_status r =? 401) = false).
      { unfold res_ok in Eok. apply Z.eqb_neq. intro E. rewrite E in Eok. discriminate. }
      rewrite H401.
      destruct (res_json r) as [d|e].
      * split; [reflexivity|]. split; [intro H; exfalso; revert H; apply handle_ok_no_redirect
                                      | discriminate].
      * split; [reflexivity|]. split; [intro H; exfalso; revert H; apply chat_catch_no_redirect
                                      | discriminate].
    + destruct (chat_http_error_eq r
                  (mk_store (cookies st) (sent st ++ [chat_request url s b])%list))
        as [m Hm].
      rewrite Hm. simpl. split.
      * destruct (res_status r =? 401); reflexivity.
      * rewrite handle_err_redirect, status_type_auth. rewrite Z.eqb_eq. tauto.
  - split; [reflexivity|]. split; [intro H; exfalso; revert H; apply chat_catch_no_redirect
                                  | discriminate].
Qed.

Lemma sendChat_401_only_side_effect_witness :
  session_present (mk_store [("session", "tok"); ("refresh_token", "r")] []) = Some "tok" /\
  let (r, st') :=
    sendChat (fun _ => FetchResolved (mk_response 401 "Unauthorized" (Ret (JObj []))))
      None "UTC" (JObj [("message", JStr "hi")])
      (mk_store [("session", "tok"); ("refresh_token", "r")] []) in
  cookies st' =
    (if got_401 (fun _ => FetchResolved (mk_response 401 "Unauthorized" (Ret (JObj []))))
          None "UTC" (JObj [("message", JStr "hi")])
          (mk_store [("session", "tok"); ("refresh_token", "r")] [])
     then delete_auth_cookies [("session", "tok"); ("refresh_token", "r")]
     else [("session", "tok"); ("refresh_token", "r")]) /\
  (In (UiTimeout 3000 "/login") (handle_chat_result (JStr "hi") r) <->
   got_401 (fun _ => FetchResolved (mk_response 401 "Unauthorized" (Ret (JObj []))))
     None "UTC" (JObj [("message", JStr "hi")])
     (mk_store [("session", "tok"); ("refresh_token", "r")] []) = true).
Proof.
  split; [reflexivity|].
  exact (sendChat_401_only_side_effect
           (fun _ => FetchResolved (mk_response 401 "Unauthorized" (Ret (JObj []))))
           None "UTC" (JObj [("message", JStr "hi")])
           (mk_store [("session", "tok"); ("refresh_token", "r")] []) "tok" (JStr "hi")
           eq_refl).
Defined.

(** C10.  Without a "session" cookie [sendChat] returns the 401
    AUTHENTICATION_FAILED object at once: no request is sent and the store
    (cookies and request log) is returned unchanged. *)
Theorem sendChat_no_session backend url tz payload st :
  cookie_lookup "session" (cookies st) = None ->
  sendChat backend url tz payload st =
  (Ret (err_result "AUTHENTICATION_FAILED" 401
          (JStr "Not authenticated - session token missing")), st).
Proof.
  intros H. rewrite sendChat_eq. unfold session_present. rewrite H. reflexivity.
Qed.

Lemma sendChat_no_session_witness :
  cookie_lookup "session" (cookies (mk_store [("refresh_token", "r")] [])) = None /\
  sendChat url_checking_backend None "UTC" (JObj [("message", JStr "hi")])
    (mk_store [("refresh_token", "r")] []) =
  (Ret (err_result "AUTHENTICATION_FAILED" 401
          (JStr "Not authenticated - session token missing")),
   mk_store [("refresh_token", "r")] []).
Proof.
  split; [reflexivity|]. apply sendChat_no_session. reflexivity.
Defined.

(** ** Session middleware *)

Lemma existsb_eqb_false p l :
  ~ In p l -> existsb (String.eqb p) l = false.
Proof.
  induction l as [|x l IH]; simpl; [reflexivity|].
  intros Hn. destruct (String.eqb_spec p x) as [->|_]; [tauto|].
  apply IH. tauto.
Qed.

(** C1 (amended).  The gating compares the whole path: for a request to
    exactly "/c" whose session cookie is absent or fails [decrypt] (the
    payload is [null]) or carries no truthy [sub], the middleware redirects to
    "/login" (which next.config.mjs forwards to "/auth/login"); for a request
    to exactly "/auth/login" or "/auth/register" whose session has a truthy
    [sub], it redirects to "/c"; any other path, "/c/..." included, is never
    redirected. *)
Theorem middleware_route_gating jwt_verify secret req session :
  decrypt jwt_verify secret (session_cookie req) = Ret session ->
  (pathname req = "/c" -> truthy (opt_prop session "sub") = false ->
   middleware jwt_verify secret req = Ret (MwRedirect "/login")) /\
  (In (pathname req) publicRoutes -> truthy (opt_prop session "sub") = true ->
   middleware jwt_verify secret req = Ret (MwRedirect "/c")) /\
  (~ In (pathname req) (protectedRoutes ++ publicRoutes)%list ->
   forall u, middleware jwt_verify secret req <> Ret (MwRedirect u)).
Proof.
  intros H. unfold middleware. rewrite H. cbn [obind].
  split; [|split].
  - intros Hp Hs. rewrite Hp, Hs. reflexivity.
  - intros Hin Hs. rewrite Hs.
    destruct Hin as [<-|[<-|[]]]; reflexivity.
  - intros Hn u.
    rewrite (existsb_eqb_false (pathname req) protectedRoutes)
      by (intro; apply Hn; apply in_or_app; tauto).
    rewrite (existsb_eqb_false (pathname req) publicRoutes)
      by (intro; apply Hn; apply in_or_app; tauto).
    simpl. destruct (truthy (opt_prop session "sub")); simpl;
      [destruct (headers_set _ _ _); simpl|]; discriminate.
Qed.

Lemma middleware_route_gating_witness :
  decrypt (fun _ _ => Ret (JObj [("sub", JStr "42")])) (Some "k") (Some "tok") =
    Ret (JObj [("sub", JStr "42")]) /\
  middleware (fun _ _ => Ret (JObj [("sub", JStr "42")])) (Some "k")
    (mk_mw_request "/auth/login" (Some "tok") []) = Ret (MwRedirect "/c").
Proof.
  split; [reflexivity|].
  apply (middleware_route_gating (fun _ _ => Ret (JObj [("sub", JStr "42")])) (Some "k")
           (mk_mw_request "/auth/login" (Some "tok") []) (JObj [("sub", JStr "42")])
           eq_refl); simpl; auto.
Defined.

(** The C1 claim read literally fails: "/c/123" lies under the protected
    prefix "/c", yet an anonymous request to it is let through. *)
Lemma middleware_subpath_not_gated :
  str_prefix "/c/" "/c/123" = true /\
  middleware (fun _ _ => Throw (type_error "Invalid Compact JWS")) (Some "secret")
    (mk_mw_request "/c/123" None []) = Ret (MwNext []).
Proof. split; reflexivity. Qed.

Lemma decrypt_ret jwt_verify secret token :
  exists v, decrypt jwt_verify secret token = Ret v.
Proof.
  unfold decrypt. destruct secret as [[|c s]|]; eauto.
  destruct (jwt_verify _ _); eauto.
Qed.

(** C8.  [decrypt] never throws; it returns [null] when the secret is missing
    or empty and whenever [jwtVerify] throws (malformed, expired, wrongly
    signed, empty or absent token).  The middleware treats a [null] session as
    anonymous: it redirects "/c" to "/login" and lets every other request
    through with its headers untouched; and it can only throw while setting
    the [x-user-id] header for a session with a truthy [sub], never because
    verification failed. *)
Theorem decrypt_errors_swallowed jwt_verify secret token :
  (exists v, decrypt jwt_verify secret token = Ret v) /\
  ((secret = None \/ secret = Some EmptyString \/
    exists s e, secret = Some s /\ jwt_verify (token_or_default token) s = Throw e) ->
   decrypt jwt_verify secret token = Ret JNull) /\
  (forall req, session_cookie req = token -> decrypt jwt_verify secret token = Ret JNull ->
   middleware jwt_verify secret req =
   Ret (if String.eqb (pathname req) "/c" then MwRedirect "/login"
        else MwNext (mw_headers req))) /\
  (forall req e, session_cookie req = token -> middleware jwt_verify secret req = Throw e ->
   exists p, decrypt jwt_verify secret token = Ret p /\ truthy (opt_prop p "sub") = true).
Proof.
  split; [|split; [|split]].
  - apply decrypt_ret.
  - intros [->|[->|(s & e & -> & He)]]; try reflexivity.
    unfold decrypt. rewrite He. destruct s; reflexivity.
  - intros req <- Hd. unfold middleware. rewrite Hd. simpl.
    destruct (String.eqb (pathname req) "/c"); simpl; [reflexivity|].
    rewrite andb_false_r. reflexivity.
  - intros req e <- Hm. unfold middleware in Hm.
    destruct (decrypt jwt_verify secret (session_cookie req)) as [p|e'] eqn:Hd.
    2:{ destruct (decrypt_ret jwt_verify secret (session_cookie req)) as [v Hv].
        congruence. }
    exists p. split; [reflexivity|].
    simpl in Hm. destruct (truthy (opt_prop p "sub")); [reflexivity|].
    repeat match type of Hm with context [if ?b then _ else _] => destruct b end;
      discriminate.
Qed.

Lemma decrypt_errors_swallowed_witness :
  decrypt (fun _ _ => Throw (type_error "Invalid Compact JWS")) (Some "k") None = Ret JNull.
Proof.
  destruct (decrypt_errors_swallowed (fun _ _ => Throw (type_error "Invalid Compact JWS"))
              (Some "k") None) as (_ & H & _).
  apply H. right; right. exists "k", (type_error "Invalid Compact JWS"). split; reflexivity.
Defined.

(** ** Chat payload dispatcher *)

Lemma str_prefix_refl s : str_prefix s s = true.
Proof.
  induction s as [|a s IH]; simpl; [reflexivity|].
  rewrite Ascii.eqb_refl, IH. reflexivity.
Qed.

Lemma str_includes_suffix p s : str_includes s (p ++ s) = true.
Proof.
  induction p as [|a p IH]; simpl.
  - destruct s; simpl; [reflexivity|]. rewrite Ascii.eqb_refl, str_prefix_refl. reflexivity.
  - rewrite IH, orb_true_r. reflexivity.
Qed.

Lemma js_add_str t o : js_add t (JStr o) = JStr (to_string t ++ o).
Proof. destruct t; reflexivity. Qed.

Lemma slot_buttons_strs payload opts :
  slot_buttons payload (map JStr opts) =
  Ret (map (fun o => mk_button [o]
         (SetDisabled true :: submit_with (JStr (to_string (opt_prop payload "reply_template") ++ o))))
       opts).
Proof.
  unfold slot_buttons. induction opts as [|o r IH]; simpl; [reflexivity|].
  rewrite IH, js_add_str. reflexivity.
Qed.

Lemma text_node_ret v : text_node v = true -> exists l, render_text v = Ret l.
Proof. unfold text_node. destruct (render_text v); [eauto|discriminate]. Qed.

Lemma is_str_eq v a : is_str v a = true -> v = JStr a.
Proof. destruct v; simpl; try discriminate. intros H. apply String.eqb_eq in H. subst; reflexivity. Qed.

(** C6 (amended): for a [slots] payload whose options are strings and whose
    header fields render, both versions of [SpecialBubble] render a single
    slot card with one button per option; the button for [o] sets the input to
    [String(reply_template) + o], which contains [o], and submits the chat form. *)
Theorem slots_one_button_per_option jp message payload opts :
  jp (to_string (opt_prop message "content")) = Ret payload ->
  opt_prop payload "type" = JStr "slots" ->
  opt_prop payload "options" = JArr (map JStr opts) ->
  text_node (opt_prop payload "agent") = true ->
  text_node (opt_prop payload "doctor") = true ->
  text_node (opt_prop payload "specialty") = true ->
  let expected := Card "slots" (map (fun o => mk_button [o]
       [SetDisabled true;
        SetInput (JStr (to_string (opt_prop payload "reply_template") ++ o));
        RequestSubmit "chat-form"]) opts) in
  render_v1 jp false message = Ret expected /\
  render_v2 jp false message = Ret expected /\
  (forall o, In o opts ->
     str_includes o (to_string (opt_prop payload "reply_template") ++ o) = true).
Proof.
  intros Hjp Hty Hopts Ha Hd Hs expected.
  destruct (text_node_ret _ Hd) as [ld Hd']. destruct (text_node_ret _ Hs) as [ls Hs'].
  destruct (text_node_ret _ Ha) as [la Ha'].
  split; [|split].
  - unfold render_v1, parse_content. rewrite Hjp, Hty. simpl is_str. cbn [andb negb].
    rewrite Hopts, Hd', Hs', slot_buttons_strs.
    destruct (truthy (opt_prop payload "agent")); [rewrite Ha'|]; reflexivity.
  - unfold render_v2, parse_content. rewrite Hjp, Hty. simpl is_str. cbn [andb negb].
    rewrite Hopts, Hd', slot_buttons_strs.
    destruct (truthy (opt_prop payload "agent")); [rewrite Ha'|]; reflexivity.
  - intros o _. apply str_includes_suffix.
Qed.

Lemma slots_one_button_per_option_witness :
  let p := JObj [("type", JStr "slots"); ("options", JArr [JStr "09:00"; JStr "10:00"]);
                 ("reply_template", JStr "I'll take ")] in
  let m := JObj [("role", JStr "assistant"); ("content", stringify_or_undef p)] in
  let e := Card "slots"
    [mk_button ["09:00"] [SetDisabled true; SetInput (JStr "I'll take 09:00"); RequestSubmit "chat-form"];
     mk_button ["10:00"] [SetDisabled true; SetInput (JStr "I'll take 10:00"); RequestSubmit "chat-form"]] in
  render_v1 (parse_only p) false m = Ret e /\ render_v2 (parse_only p) false m = Ret e.
Proof.
  intros p m e.
  destruct (slots_one_button_per_option (parse_only p) m p ["09:00"; "10:00"]
              eq_refl eq_refl eq_refl eq_refl eq_refl eq_refl) as (H1 & H2 & _).
  split; [exact H1 | exact H2].
Defined.

(** C6 counterexample: the options array holds the number [9] and the
    payload has no [reply_template]; the button for [9] sets the chat input to
    [undefined + 9], which is [NaN], a message not containing the slot text. *)
Lemma slots_numeric_option_nan :
  render_v1 (parse_only slots_nine) false slots_nine_message =
    Ret (Card "slots" [mk_button ["9"] [SetDisabled true; SetInput JNaN; RequestSubmit "chat-form"]]) /\
  render_v2 (parse_only slots_nine) false slots_nine_message =
    Ret (Card "slots" [mk_button ["9"] [SetDisabled true; SetInput JNaN; RequestSubmit "chat-form"]]) /\
  str_includes "9" (to_string JNaN) = false.
Proof. vm_compute. repeat split. Qed.

Lemma chat_http_error_sent r st : sent (snd (chat_http_error r st)) = sent st.
Proof.
  destruct (chat_http_error_eq r st) as [m Hm]. rewrite Hm. simpl.
  destruct (res_status r =? 401); reflexivity.
Qed.

Lemma sendChat_request_sent backend url tz payload st s b :
  session_present st = Some s ->
  chat_body tz payload = Ret b ->
  sent (snd (sendChat backend url tz payload st)) = (sent st ++ [chat_request url s b])%list.
Proof.
  intros Hs Hb. rewrite sendChat_eq, Hs, Hb. cbv zeta.
  destruct (backend (chat_request url s b)) as [r|e]; [|reflexivity].
  destruct (res_ok r); [destruct (res_json r); reflexivity|].
  rewrite chat_http_error_sent. reflexivity.
Qed.

Lemma resume_click_payloads message text v q k :
  In (SendChatThen q k) (resume_click message text v) ->
  q = resume_payload text (opt_prop message "interrupt_id") v.
Proof. simpl. intros [H|[H|[]]]; [discriminate|]. injection H; intros; subst; reflexivity. Qed.

(** C5: a [confirm_booking] bubble (second version of [SpecialBubble]) only
    ever sends follow-up [sendChat] payloads carrying the message's own
    [interrupt_id] and a [resume_value] of "no" (Cancel) or "yes" (Book It);
    when the doctor and start time are truthy and render, it shows exactly
    those two buttons; and the request [sendChat] then issues carries that
    [interrupt_id] and [resume_value] unchanged. *)
Theorem confirm_booking_resume jp message payload :
  jp (to_string (opt_prop message "content")) = Ret payload ->
  opt_prop payload "type" = JStr "confirm_booking" ->
  (forall el b q k, render_v2 jp false message = Ret el -> In b (card_buttons el) ->
     In (SendChatThen q k) (btn_click b) ->
     exists text v, q = resume_payload text (opt_prop message "interrupt_id") v /\
                    (v = "yes" \/ v = "no")) /\
  (truthy (opt_prop payload "doctor") = true -> truthy (opt_prop payload "starts_at") = true ->
   text_node (opt_prop payload "doctor") = true -> text_node (opt_prop payload "starts_at") = true ->
   render_v2 jp false message =
     Ret (Card "confirm_booking"
       [mk_button ["Cancel"] (resume_click message "No, I don't want to book this appointment." "no");
        mk_button ["Book It"] (resume_click message "Yes, please book this appointment." "yes")])) /\
  (forall backend url tz st s text v,
     session_present st = Some s ->
     exists rq, sent (snd (sendChat backend url tz
                   (resume_payload text (opt_prop message "interrupt_id") v) st))
                = (sent st ++ [rq])%list /\
                opt_prop (req_body rq) "interrupt_id" = opt_prop message "interrupt_id" /\
                opt_prop (req_body rq) "resume_value" = JStr v).
Proof.
  intros Hjp Hty. split; [|split].
  - intros el b q k Hr Hb Hq.
    unfold render_v2, parse_content in Hr. rewrite Hjp, Hty in Hr. simpl is_str in Hr.
    cbn [andb negb] in Hr.
    destruct (truthy (opt_prop payload "doctor") && truthy (opt_prop payload "starts_at")).
    + destruct (render_text (opt_prop payload "doctor")); [|discriminate].
      destruct (render_text (opt_prop payload "starts_at")); [|discriminate].
      cbn [obind] in Hr. injection Hr; intros; subst el. simpl in Hb.
      destruct Hb as [Hb|[Hb|[]]]; subst b; simpl btn_click in Hq;
        apply resume_click_payloads in Hq; eauto.
    + destruct (is_str (opt_prop payload "status") "confirmed" && truthy (opt_prop payload "id")).
      * destruct (render_text (opt_prop payload "doctor_name")); [|discriminate].
        destruct (render_text (opt_prop payload "start_dt")); [|discriminate].
        cbn [obind] in Hr. injection Hr; intros; subst el. destruct Hb.
      * injection Hr; intros; subst el. destruct Hb.
  - intros Hd Hs Hd' Hs'.
    destruct (text_node_ret _ Hd') as [ld Hd'']. destruct (text_node_ret _ Hs') as [ls Hs''].
    unfold render_v2, parse_content. rewrite Hjp, Hty. simpl is_str. rewrite Hd, Hs.
    cbn [andb negb]. rewrite Hd'', Hs''. reflexivity.
  - intros backend url tz st s text v Hs.
    eexists. split.
    + apply (sendChat_request_sent backend url tz _ st s). exact Hs. reflexivity.
    + split; reflexivity.
Qed.

Lemma confirm_booking_resume_witness :
  render_v2 (parse_only confirm_payload) false confirm_message =
    Ret (Card "confirm_booking"
      [mk_button ["Cancel"] (resume_click confirm_message "No, I don't want to book this appointment." "no");
       mk_button ["Book It"] (resume_click confirm_message "Yes, please book this appointment." "yes")]) /\
  exists rq, sent (snd (sendChat (fun _ => FetchRejected (type_error "fetch failed"))
                 (Some "http://backend:8000") "UTC"
                 (resume_payload "Yes, please book this appointment." (JStr "int-42") "yes")
                 (mk_store [("session", "tok")] [])))
             = [rq] /\
             opt_prop (req_body rq) "interrupt_id" = JStr "int-42" /\
             opt_prop (req_body rq) "resume_value" = JStr "yes".
Proof.
  destruct (confirm_booking_resume (parse_only confirm_payload) confirm_message confirm_payload
              eq_refl eq_refl) as (_ & H2 & H3).
  split.
  - apply H2; reflexivity.
  - exact (H3 (fun _ => FetchRejected (type_error "fetch failed")) (Some "http://backend:8000")
             "UTC" (mk_store [("session", "tok")] []) "tok"
             "Yes, please book this appointment." "yes" eq_refl).
Defined.

(** ** Login action *)

(** The statement of [login]'s branches: a schema failure returns the field
    errors and sends nothing; otherwise exactly the login request is sent, a
    2xx answer redirects to "/c", and a non-2xx answer returns an errors
    object except when the status is not 500 and the body parses to [null],
    where reading [body.detail] throws. *)
Theorem login_outcomes backend url zod_email form st :
  match login_schema_parse zod_email (from_entries form) with
  | inl fe =>
      login backend url zod_email form st =
        (Ret (ActReturn (JObj [("errors", field_errors_obj fe)])), st)
  | inr (e, p) =>
      let rq := login_request url e p in
      sent (snd (login backend url zod_email form st)) = (sent st ++ [rq])%list /\
      match backend rq with
      | FetchRejected ex => fst (login backend url zod_email form st) = Throw ex
      | FetchResolved r =>
          if res_ok r then fst (login backend url zod_email form st) = Ret (ActRedirect "/c")
          else if negb (res_status r =? 500) &&
                  match res_json r with Ret JNull | Ret JUndef => true | _ => false end
          then exists ex, fst (login backend url zod_email form st) = Throw ex
          else exists v, fst (login backend url zod_email form st) = Ret (ActReturn v)
      end
  end.
Proof.
  unfold login.
  destruct (login_schema_parse zod_email (from_entries form)) as [fe|[e p]]; [reflexivity|].
  unfold mbind, do_fetch. cbv zeta.
  destruct (backend (login_request url e p)) as [r|ex]; [|split; reflexivity].
  destruct (res_ok r); [split; reflexivity|].
  destruct (res_status r =? 500) eqn:H500; simpl negb; cbn [andb].
  - split; [reflexivity|]. eexists. reflexivity.
  - unfold json_or_empty, mlift, mret.
    destruct (res_json r) as [b|x].
    + destruct b; simpl; (split; [reflexivity|]); eexists; reflexivity.
    + simpl. split; [reflexivity|]. eexists; reflexivity.
Qed.

(** C7 failing input: schema-valid credentials, the backend answers 401 with
    the JSON body [null]; [login] throws instead of returning errors. *)
Lemma login_401_null_body_throws :
  login (answer_with 401 "Unauthorized" (Ret JNull)) (Some "http://backend:8000")
        (fun _ => true) [("email", "ann@example.com"); ("password", "correct-horse")] empty_store =
  (Throw (type_error "Cannot read properties of null (reading 'detail')"),
   mk_store [] [login_request (Some "http://backend:8000") "ann@example.com" "correct-horse"]).
Proof. vm_compute. reflexivity. Qed.

(** ** Register action *)

Lemma all_from_spec f n : forall z, all_from f z n = true ->
  forall x, z <= x < z + Z.of_nat n -> f x = true.
Proof.
  induction n as [|k IH]; simpl; intros z H x Hx; [lia|].
  destruct (f z) eqn:Hz; [|discriminate].
  destruct (Z.eq_dec x z) as [->|Hne]; [exact Hz|].
  apply (IH (z + 1)); [exact H|lia].
Qed.

Lemma year_text_digits : all_from (fun y => four_digits (pad_zeros 4 y)) 0 (Z.to_nat 10000) = true.
Proof. vm_compute. reflexivity. Qed.

Lemma two_digit_text : all_from (fun n => two_digits (pad_zeros 2 n)) 0 (Z.to_nat 100) = true.
Proof. vm_compute. reflexivity. Qed.

Lemma doy_bounds doe : 0 <= doe < 146097 -> 0 <= doe_doy doe <= 365.
Proof. intros H. unfold doe_doy, doe_yoe. Z.to_euclidean_division_equations; lia. Qed.

Lemma month_day_bounds doe :
  0 <= doe < 146097 -> 1 <= doe_month doe <= 12 /\ 1 <= doe_day doe <= 31.
Proof.
  intros H. pose proof (doy_bounds doe H) as Hdoy.
  unfold doe_month, doe_day, doe_mp.
  destruct (Z.ltb_spec ((5 * doe_doy doe + 2) / 153) 10);
    split; Z.to_euclidean_division_equations; lia.
Qed.

Ltac split_andb :=
  repeat match goal with H : _ && _ = true |- _ => apply andb_prop in H; destruct H end.

Lemma ymd_shape_of a b c r :
  four_digits a = true -> two_digits b = true -> two_digits c = true ->
  ymd_shape (str_slice 10 (a ++ "-" ++ b ++ "-" ++ c ++ r)) = true.
Proof.
  unfold four_digits, two_digits.
  destruct a as [|a1 [|a2 [|a3 [|a4 [|? ?]]]]]; simpl; try discriminate.
  destruct b as [|b1 [|b2 [|? ?]]]; simpl; try discriminate.
  destruct c as [|c1 [|c2 [|? ?]]]; simpl; try discriminate.
  intros Ha Hb Hc. split_andb.
  unfold ymd_shape. simpl.
  repeat match goal with H : is_digit _ = true |- _ => rewrite H; clear H end.
  reflexivity.
Qed.

Lemma civil_from_days_doe days :
  exists doe, 0 <= doe < 146097 /\
    snd (fst (civil_from_days days)) = doe_month doe /\ snd (civil_from_days days) = doe_day doe.
Proof.
  exists (days + 719468 - (days + 719468) / 146097 * 146097).
  split; [|split; reflexivity].
  pose proof (Z.mod_pos_bound (days + 719468) 146097 ltac:(lia)) as Hb.
  rewrite Z.mod_eq in Hb by lia. lia.
Qed.

Lemma iso_date_shape t :
  0 <= utc_year t <= 9999 -> ymd_shape (str_slice 10 (to_iso_string t)) = true.
Proof.
  unfold utc_year, to_iso_string.
  destruct (civil_from_days_doe (t / ms_per_day)) as (doe & Hdoe & Hm & Hd).
  destruct (civil_from_days (t / ms_per_day)) as [[y m] d]. simpl in Hm, Hd |- *.
  intros Hy. subst m d.
  unfold iso_year_text.
  replace ((0 <=? y) && (y <=? 9999)) with true
    by (symmetry; apply andb_true_iff; split; apply Z.leb_le; lia).
  pose proof (all_from_spec _ _ _ year_text_digits y ltac:(rewrite Z2Nat.id; lia)) as Hyd.
  destruct (month_day_bounds doe Hdoe) as [Hm Hd].
  pose proof (all_from_spec _ _ _ two_digit_text (doe_month doe) ltac:(rewrite Z2Nat.id; lia)) as Hm'.
  pose proof (all_from_spec _ _ _ two_digit_text (doe_day doe) ltac:(rewrite Z2Nat.id; lia)) as Hd'.
  cbv beta in Hyd, Hm', Hd'.
  apply ymd_shape_of; assumption.
Qed.

Lemma zrole_shape v role :
  zrole v = Some role -> role = [] \/ exists r, role = [("role", r)].
Proof.
  unfold zrole. intros H.
  destruct v as [[s|t|]|].
  - destruct (zenum (Some (FStr s)) ["doctor"; "patient"; "admin"]); simpl in H;
      [|discriminate]. injection H as <-. eauto.
  - discriminate.
  - injection H as <-. eauto.
  - injection H as <-. auto.
Qed.

Lemma register_schema_parse_shape zod_email date_parse data parsed :
  register_schema_parse zod_email date_parse data = Some parsed ->
  exists e p fn ln sx ph ad t role rp,
    zcoerce_date date_parse (assoc_get "dob" data) = Some t /\
    (role = [] \/ exists r, role = [("role", r)]) /\
    parsed = ([("email", FStr e); ("password", FStr p); ("first_name", FStr fn);
               ("last_name", FStr ln); ("sex", FStr sx); ("phone", FStr ph);
               ("address", FStr ad); ("dob", FDate t)] ++ role ++
              [("repeat_password", FStr rp)])%list.
Proof.
  unfold register_schema_parse. cbv zeta. intros H.
  destruct (zstr (assoc_get "email" data) [zod_email]) as [e|]; [|discriminate].
  destruct (zstr (assoc_get "password" data) [min_len 8]) as [p|]; [|discriminate].
  destruct (zstr (assoc_get "first_name" data) [min_len 1]) as [fn|]; [|discriminate].
  destruct (zstr (assoc_get "last_name" data) [min_len 1]) as [ln|]; [|discriminate].
  destruct (zenum (assoc_get "sex" data) ["M"; "F"]) as [sx|]; [|discriminate].
  destruct (zstr (assoc_get "phone" data) [min_len 1]) as [ph|]; [|discriminate].
  destruct (zstr (assoc_get "address" data) [min_len 1]) as [ad|]; [|discriminate].
  destruct (zcoerce_date date_parse (assoc_get "dob" data)) as [t|] eqn:Ht; [|discriminate].
  destruct (zrole (assoc_get "role" data)) as [role|] eqn:Hr; [|discriminate].
  destruct (zstr (assoc_get "repeat_password" data) [min_len 8]) as [rp|]; [|discriminate].
  destruct (_ && _); [|discriminate]. injection H as <-.
  exists e, p, fn, ln, sx, ph, ad, t, role, rp.
  split; [reflexivity|]. split; [exact (zrole_shape _ _ Hr)|reflexivity].
Qed.

Lemma register_payload_shape e p fn ln sx ph ad t role rp :
  (role = [] \/ exists r, role = [("role", r)]) ->
  register_payload ([("email", FStr e); ("password", FStr p); ("first_name", FStr fn);
                     ("last_name", FStr ln); ("sex", FStr sx); ("phone", FStr ph);
                     ("address", FStr ad); ("dob", FDate t)] ++ role ++
                    [("repeat_password", FStr rp)])%list =
  Ret (JObj ([("email", JStr e); ("password", JStr p)] ++
             map (fun kv => (fst kv, fval_json (snd kv))) role ++
             [("patient_profile", JObj [("sex", JStr sx); ("first_name", JStr fn);
                ("last_name", JStr ln); ("dob", JStr (str_slice 10 (to_iso_string t)));
                ("phone", JStr ph); ("address", JStr ad)])])%list).
Proof. intros [->|[r ->]]; reflexivity. Qed.

(** C9: for a schema-valid registration, [register] sends one
    request to [/auth/register] whose body holds [email], [password] and, when
    given, [role] at the top level, then [patient_profile] with [sex],
    [first_name], [last_name], [dob], [phone] and [address]; [repeat_password]
    is dropped.  [dob] is the first ten characters of the date's UTC ISO
    string, which has the shape YYYY-MM-DD when the UTC year is 0 to 9999. *)
Theorem register_body_nesting backend url zod_email date_parse fe data st parsed :
  register_schema_parse zod_email date_parse data = Some parsed ->
  exists e p fn ln sx ph ad t role rp,
    zcoerce_date date_parse (assoc_get "dob" data) = Some t /\
    (role = [] \/ exists r, role = [("role", r)]) /\
    parsed = ([("email", FStr e); ("password", FStr p); ("first_name", FStr fn);
               ("last_name", FStr ln); ("sex", FStr sx); ("phone", FStr ph);
               ("address", FStr ad); ("dob", FDate t)] ++ role ++
              [("repeat_password", FStr rp)])%list /\
    sent (snd (register backend url zod_email date_parse fe data st)) =
      (sent st ++ [register_request url
        (JObj ([("email", JStr e); ("password", JStr p)] ++
               map (fun kv => (fst kv, fval_json (snd kv))) role ++
               [("patient_profile", JObj [("sex", JStr sx); ("first_name", JStr fn);
                  ("last_name", JStr ln); ("dob", JStr (str_slice 10 (to_iso_string t)));
                  ("phone", JStr ph); ("address", JStr ad)])]))])%list /\
    (0 <= utc_year t <= 9999 -> ymd_shape (str_slice 10 (to_iso_string t)) = true).
Proof.
  intros H.
  destruct (register_schema_parse_shape _ _ _ _ H)
    as (e & p & fn & ln & sx & ph & ad & t & role & rp & Ht & Hrole & Hp).
  exists e, p, fn, ln, sx, ph, ad, t, role, rp.
  split; [exact Ht|]. split; [exact Hrole|]. split; [exact Hp|].
  split; [|apply iso_date_shape].
  unfold register. rewrite H. subst parsed.
  unfold mbind at 1, mlift. rewrite (register_payload_shape e p fn ln sx ph ad t role rp Hrole).
  unfold mbind, do_fetch. cbv zeta.
  destruct (backend _) as [r|x]; [|reflexivity].
  destruct (res_ok r); [reflexivity|].
  unfold mlift, mret. destruct (get_prop (json_or_empty r) "detail"); reflexivity.
Qed.

Lemma register_body_nesting_witness :
  register_schema_parse (fun _ => true) (fun _ => None) (reg_form 946684800000) =
    Some (reg_parsed 946684800000) /\
  exists e p fn ln sx ph ad t role rp,
    zcoerce_date (fun _ => None) (assoc_get "dob" (reg_form 946684800000)) = Some t /\
    (role = [] \/ exists r, role = [("role", r)]) /\
    reg_parsed 946684800000 =
      ([("email", FStr e); ("password", FStr p); ("first_name", FStr fn);
        ("last_name", FStr ln); ("sex", FStr sx); ("phone", FStr ph);
        ("address", FStr ad); ("dob", FDate t)] ++ role ++
       [("repeat_password", FStr rp)])%list /\
    sent (snd (register (answer_with 201 "Created" (Ret (JObj []))) (Some "http://backend:8000")
                 (fun _ => true) (fun _ => None) (fun _ => JNull) (reg_form 946684800000) empty_store)) =
      ([] ++ [register_request (Some "http://backend:8000")
        (JObj ([("email", JStr e); ("password", JStr p)] ++
               map (fun kv => (fst kv, fval_json (snd kv))) role ++
               [("patient_profile", JObj [("sex", JStr sx); ("first_name", JStr fn);
                  ("last_name", JStr ln); ("dob", JStr (str_slice 10 (to_iso_string t)));
                  ("phone", JStr ph); ("address", JStr ad)])]))])%list /\
    (0 <= utc_year t <= 9999 -> ymd_shape (str_slice 10 (to_iso_string t)) = true).
Proof.
  split; [vm_compute; reflexivity|].
  exact (register_body_nesting (answer_with 201 "Created" (Ret (JObj []))) (Some "http://backend:8000")
           (fun _ => true) (fun _ => None) (fun _ => JNull) (reg_form 946684800000) empty_store
           (reg_parsed 946684800000) eq_refl).
Defined.

(** C9, where the code departs from its own [// YYYY-MM-DD] comment: a
    schema-valid registration whose date of birth is 10000-01-01 (UTC) sends
    [dob] as "+010000-01". *)
Lemma register_dob_year_10000 :
  register_schema_parse (fun _ => true) (fun _ => None) (reg_form 253402300800000) =
    Some (reg_parsed 253402300800000) /\
  sent (snd (register (answer_with 201 "Created" (Ret (JObj []))) (Some "http://backend:8000")
               (fun _ => true) (fun _ => None) (fun _ => JNull) (reg_form 253402300800000) empty_store)) =
    [register_request (Some "http://backend:8000")
       (JObj [("email", JStr "ann@example.com"); ("password", JStr "correct-horse");
              ("patient_profile", JObj [("sex", JStr "F"); ("first_name", JStr "Ann");
                 ("last_name", JStr "Lee"); ("dob", JStr "+010000-01");
                 ("phone", JStr "555-0100"); ("address", JStr "1 Main St")])])] /\
  ymd_shape "+010000-01" = false.
Proof. split; [|split]; vm_compute; reflexivity. Qed.

(** * Further properties of the code *)

(** ** [Object.fromEntries] and [filterFormData] *)

Lemma assoc_get_set {A} k k' (v : A) l :
  assoc_get k (assoc_set k' v l) = if String.eqb k k' then Some v else assoc_get k l.
Proof.
  induction l as [|[n w] r IH]; simpl.
  - destruct (String.eqb k k'); reflexivity.
  - destruct (String.eqb k' n) eqn:E1; simpl.
    + apply String.eqb_eq in E1; subst n.
      destruct (String.eqb k k'); reflexivity.
    + rewrite IH. destruct (String.eqb k n) eqn:E2, (String.eqb k k') eqn:E3; try reflexivity.
      apply String.eqb_eq in E2, E3; subst. rewrite String.eqb_refl in E1. discriminate.
Qed.

Lemma assoc_get_app {A} k (l1 l2 : list (string * A)) :
  assoc_get k (l1 ++ l2) = match assoc_get k l1 with Some v => Some v | None => assoc_get k l2 end.
Proof.
  induction l1 as [|[n w] r IH]; simpl; [reflexivity|].
  destruct (String.eqb k n); [reflexivity | exact IH].
Qed.

Lemma from_entries_get_acc {A} k (e : list (string * A)) : forall acc,
  assoc_get k (fold_left (fun acc kv => assoc_set (fst kv) (snd kv) acc) e acc) =
  match assoc_get k (rev e) with Some v => Some v | None => assoc_get k acc end.
Proof.
  induction e as [|[n w] r IH]; intros acc; simpl; [reflexivity|].
  rewrite IH, assoc_get_app, assoc_get_set. simpl.
  destruct (assoc_get k (rev r)); [reflexivity|].
  destruct (String.eqb k n); reflexivity.
Qed.

Lemma from_entries_get {A} k (e : list (string * A)) :
  assoc_get k (from_entries e) = assoc_get k (rev e).
Proof.
  unfold from_entries. rewrite from_entries_get_acc.
  destruct (assoc_get k (rev e)); reflexivity.
Qed.

Lemma assoc_set_keys {A} k (v : A) l :
  map fst (assoc_set k v l) =
  if existsb (String.eqb k) (map fst l) then map fst l else (map fst l ++ [k])%list.
Proof.
  induction l as [|[n w] r IH]; simpl; [reflexivity|].
  destruct (String.eqb k n) eqn:E; simpl.
  - apply String.eqb_eq in E; subst. reflexivity.
  - rewrite IH. destruct (existsb (String.eqb k) (map fst r)); reflexivity.
Qed.

Lemma existsb_eqb_in k l : existsb (String.eqb k) l = false -> ~ In k l.
Proof.
  induction l as [|x r IH]; simpl; [tauto|].
  intros H [->|Hin].
  - rewrite String.eqb_refl in H. discriminate.
  - apply orb_false_iff in H as [_ H]. exact (IH H Hin).
Qed.

Lemma from_entries_nodup {A} (e : list (string * A)) : NoDup (map fst (from_entries e)).
Proof.
  unfold from_entries.
  assert (forall acc : list (string * A), NoDup (map fst acc) ->
    NoDup (map fst (fold_left (fun acc kv => assoc_set (fst kv) (snd kv) acc) e acc))) as G.
  { induction e as [|[n w] r IH]; intros acc Hacc; simpl; [exact Hacc|].
    apply IH. rewrite assoc_set_keys.
    destruct (existsb (String.eqb n) (map fst acc)) eqn:E; [exact Hacc|].
    apply NoDup_app; [exact Hacc | constructor; [simpl; tauto | constructor] |].
    intros x Hx [<-|[]]. exact (existsb_eqb_in _ _ E Hx). }
  apply G. constructor.
Qed.

Lemma assoc_get_filter_dollar {A} k (l : list (string * A)) :
  assoc_get k (filter (fun kv => negb (str_prefix "$" (fst kv))) l) =
  if str_prefix "$" k then None else assoc_get k l.
Proof.
  induction l as [|[n w] r IH].
  - destruct (str_prefix "$" k); reflexivity.
  - cbn [filter fst]. destruct (str_prefix "$" n) eqn:En; cbn [negb assoc_get].
    + rewrite IH. destruct (String.eqb k n) eqn:E; [|reflexivity].
      apply String.eqb_eq in E; subst. rewrite En. reflexivity.
    + destruct (String.eqb k n) eqn:E; [|exact IH].
      apply String.eqb_eq in E; subst. rewrite En. reflexivity.
Qed.

(** [filterFormData] keeps each name once: a name starting with "$" is
    absent, any other name maps to the value of its last entry in the form. *)
Theorem filterFormData_lookup {A} (e : list (string * A)) k :
  assoc_get k (filterFormData e) = (if str_prefix "$" k then None else assoc_get k (rev e)) /\
  NoDup (map fst (filterFormData e)).
Proof.
  unfold filterFormData. split; [|apply from_entries_nodup].
  rewrite from_entries_get, <- filter_rev, assoc_get_filter_dollar. reflexivity.
Qed.

(** ** [logout] and [deleteSession] *)

Lemma cookie_lookup_delete n m l :
  cookie_lookup n (filter (fun c => negb (String.eqb (fst c) m)) l) =
  if String.eqb n m then None else cookie_lookup n l.
Proof.
  induction l as [|[a v] r IH]; simpl.
  - destruct (String.eqb n m); reflexivity.
  - destruct (String.eqb a m) eqn:Eam; simpl.
    + apply String.eqb_eq in Eam; subst a. rewrite IH.
      destruct (String.eqb m n) eqn:E1, (String.eqb n m) eqn:E2; try reflexivity.
      * apply String.eqb_eq in E1; subst. rewrite String.eqb_refl in E2. discriminate.
    + rewrite IH. destruct (String.eqb a n) eqn:E1, (String.eqb n m) eqn:E2; try reflexivity.
      apply String.eqb_eq in E1, E2; subst. rewrite String.eqb_refl in Eam. discriminate.
Qed.

(** [logout] deletes exactly the "session" and "refresh_token" cookies,
    keeps every other cookie, sends no request and redirects to "/login";
    [deleteSession] deletes exactly the "session" cookie. *)
Theorem logout_clears_auth_cookies st :
  fst (logout st) = Ret (ActRedirect "/login") /\
  sent (snd (logout st)) = sent st /\
  (forall n, cookie_lookup n (cookies (snd (logout st))) =
     if String.eqb n "session" || String.eqb n "refresh_token" then None
     else cookie_lookup n (cookies st)) /\
  fst (deleteSession st) = Ret tt /\ sent (snd (deleteSession st)) = sent st /\
  (forall n, cookie_lookup n (cookies (snd (deleteSession st))) =
     if String.eqb n "session" then None else cookie_lookup n (cookies st)).
Proof.
  unfold logout, deleteSession, mbind, cookie_delete, mret; simpl.
  split; [reflexivity|]. split; [reflexivity|]. split.
  - intros n. rewrite !cookie_lookup_delete.
    destruct (String.eqb n "session"), (String.eqb n "refresh_token"); reflexivity.
  - split; [reflexivity|]. split; [reflexivity|].
    intros n. apply cookie_lookup_delete.
Qed.

(** ** [getUser] *)

(** [getUser] never throws and changes no cookie: it sends one GET to
    [/auth/me] carrying every cookie as "name=value" joined by "; ", and
    returns the parsed body of a 2xx answer, [null] on any other status, on
    a rejected [fetch] and on an unparsable body. *)
Theorem getUser_null_on_failure backend url st :
  let rq := me_request url (cookie_header (cookies st)) in
  snd (getUser backend url st) = mk_store (cookies st) (sent st ++ [rq])%list /\
  fst (getUser backend url st) =
    Ret (match backend rq with
         | FetchResolved r =>
             if res_ok r then match res_json r with Ret d => d | Throw _ => JNull end
             else JNull
         | FetchRejected _ => JNull
         end).
Proof.
  intros rq. unfold getUser, mtry, mbind, do_fetch. fold rq.
  destruct (backend rq) as [r|e]; simpl; [|split; reflexivity].
  destruct (res_ok r); simpl; [|split; reflexivity].
  unfold mlift. destruct (res_json r); split; reflexivity.
Qed.

(** ** [Chat.handleSubmit] *)

Lemma handle_chat_result_one_append retry r : appended (handle_chat_result retry r) = 1%nat.
Proof.
  unfold handle_chat_result. cbv zeta.
  destruct r as [res|e]; cbn [obind]; [|reflexivity].
  repeat match goal with
         | |- context [obind ?c _] => destruct c; cbn [obind]
         | |- context [if ?b then _ else _] => destruct b
         end; reflexivity.
Qed.

(** [handleSubmit] on an input that [trim] leaves empty does nothing; otherwise it appends the
    user's message, clears the input, shows the thinking state, appends
    exactly one assistant message for the settlement of [sendChat] (with a
    redirect timer at most), and ends the thinking state. *)
Theorem handleSubmit_one_reply backend url tz btz input st :
  (js_trim input = EmptyString ->
   handleSubmit backend url tz btz input st = (Ret [], st)) /\
  (js_trim input <> EmptyString ->
   exists effs,
     fst (handleSubmit backend url tz btz input st) =
       Ret ([SubAppend (JObj [("role", JStr "user"); ("content", JStr input)]);
             SubClearInput; SubThinking true] ++ map SubUi effs ++ [SubThinking false])%list /\
     appended effs = 1%nat /\
     snd (handleSubmit backend url tz btz input st) =
       snd (sendChat backend url tz (JObj [("message", JStr input); ("user_tz", btz)]) st)).
Proof.
  unfold handleSubmit. split.
  - intros H. rewrite H. reflexivity.
  - intros H. apply String.eqb_neq in H. rewrite H. cbv zeta.
    destruct (sendChat backend url tz (JObj [("message", JStr input); ("user_tz", btz)]) st)
      as [r st'].
    eexists. split; [reflexivity|]. split; [apply handle_chat_result_one_append | reflexivity].
Qed.

Lemma handleSubmit_one_reply_witness :
  handleSubmit (fun _ => FetchRejected (type_error "fetch failed")) None "UTC" (JStr "UTC")
    "  " (mk_store [("session", "tok")] []) = (Ret [], mk_store [("session", "tok")] []) /\
  exists effs,
    fst (handleSubmit (fun _ => FetchRejected (type_error "fetch failed")) None "UTC" (JStr "UTC")
           "hi" (mk_store [("session", "tok")] [])) =
      Ret ([SubAppend (JObj [("role", JStr "user"); ("content", JStr "hi")]);
            SubClearInput; SubThinking true] ++ map SubUi effs ++ [SubThinking false])%list /\
    appended effs = 1%nat /\
    snd (handleSubmit (fun _ => FetchRejected (type_error "fetch failed")) None "UTC" (JStr "UTC")
           "hi" (mk_store [("session", "tok")] [])) =
      snd (sendChat (fun _ => FetchRejected (type_error "fetch failed")) None "UTC"
             (JObj [("message", JStr "hi"); ("user_tz", JStr "UTC")]) (mk_store [("session", "tok")] [])).
Proof.
  split.
  - apply (proj1 (handleSubmit_one_reply (fun _ => FetchRejected (type_error "fetch failed"))
                    None "UTC" (JStr "UTC") "  " (mk_store [("session", "tok")] []))).
    reflexivity.
  - apply (proj2 (handleSubmit_one_reply (fun _ => FetchRejected (type_error "fetch failed"))
                    None "UTC" (JStr "UTC") "hi" (mk_store [("session", "tok")] []))).
    discriminate.
Defined.

(** ** More of [SpecialBubble] *)

(** A message whose content is not the JSON text of an object (plain text,
    a number, ...) renders as the plain [ChatBubble] in both versions. *)
Theorem bubble_non_object_plain jp message :
  match jp (to_string (opt_prop message "content")) with Ret (JObj _) => False | _ => True end ->
  render_v1 jp false message = Ret (Bubble message) /\
  render_v2 jp false message = Ret (Bubble message).
Proof.
  unfold render_v1, render_v2, parse_content.
  destruct (jp (to_string (opt_prop message "content"))) as [[]|e]; intros H;
    try contradiction; split; reflexivity.
Qed.

Lemma bubble_non_object_plain_witness :
  render_v1 (fun _ => Throw (mk_exn "SyntaxError" "Unexpected token")) false
    (assistant_msg (JStr "Hello there")) = Ret (Bubble (assistant_msg (JStr "Hello there"))) /\
  render_v2 (fun _ => Throw (mk_exn "SyntaxError" "Unexpected token")) false
    (assistant_msg (JStr "Hello there")) = Ret (Bubble (assistant_msg (JStr "Hello there"))).
Proof. apply bubble_non_object_plain. exact I. Defined.

Lemma doctor_buttons_json disable docs :
  doctor_buttons disable (map doctor_json docs) =
  Ret (map (fun d => mk_button (doctor_label d)
              ((if disable then [SetDisabled true] else []) ++ submit_with (JStr (doctor_input d)))%list)
           docs).
Proof.
  unfold doctor_buttons. induction docs as [|[[i n] sp] r IH]; [reflexivity|].
  simpl map. cbn [map_outcome]. rewrite IH. reflexivity.
Qed.

(** A [doctors] payload whose entries carry string ids, names and
    specialties renders one button per doctor, labelled "name . specialty";
    its click fills the input with "I'd like to book with doctor_id <id>
    (<name>)" and submits it (disabling the bubble first in the first
    version only). *)
Theorem doctors_one_button_per_doctor jp message payload docs :
  jp (to_string (opt_prop message "content")) = Ret payload ->
  opt_prop payload "type" = JStr "doctors" ->
  opt_prop payload "doctors" = JArr (map doctor_json docs) ->
  text_node (js_nullish (opt_prop payload "agent") (JStr "Scheduler")) = true ->
  text_node (opt_prop payload "message") = true ->
  render_v1 jp false message =
    Ret (Card "doctors" (map (fun d => mk_button (doctor_label d)
                                 (SetDisabled true :: submit_with (JStr (doctor_input d)))) docs)) /\
  render_v2 jp false message =
    Ret (Card "doctors" (map (fun d => mk_button (doctor_label d)
                                 (submit_with (JStr (doctor_input d)))) docs)).
Proof.
  intros Hjp Hty Hd Ha Hm.
  destruct (text_node_ret _ Ha) as [la Ha']. destruct (text_node_ret _ Hm) as [lm Hm'].
  split.
  - unfold render_v1, parse_content. rewrite Hjp, Hty. simpl is_str. cbn [andb negb].
    rewrite Hd, Ha', Hm', doctor_buttons_json. reflexivity.
  - unfold render_v2, parse_content. rewrite Hjp, Hty. simpl is_str. cbn [andb negb].
    rewrite Hd, Ha', Hm', doctor_buttons_json. reflexivity.
Qed.

Lemma doctors_one_button_per_doctor_witness :
  let p := JObj [("type", JStr "doctors");
                 ("doctors", JArr [doctor_json ("7", "Dr. Lee", "Cardiology")])] in
  let m := assistant_msg (stringify_or_undef p) in
  render_v1 (parse_only p) false m =
    Ret (Card "doctors" [mk_button ["Dr. Lee"; " . "; "Cardiology"]
      (SetDisabled true :: submit_with (JStr "I'd like to book with doctor_id 7 (Dr. Lee)"))]) /\
  render_v2 (parse_only p) false m =
    Ret (Card "doctors" [mk_button ["Dr. Lee"; " . "; "Cardiology"]
      (submit_with (JStr "I'd like to book with doctor_id 7 (Dr. Lee)"))]).
Proof.
  intros p m.
  exact (doctors_one_button_per_doctor (parse_only p) m p [("7", "Dr. Lee", "Cardiology")]
           eq_refl eq_refl eq_refl eq_refl eq_refl).
Defined.

(** ** The error messages of [sendChat] *)

Lemma chat_settlement_resolved backend url tz payload st r :
  chat_settlement backend url tz payload st = Some (FetchResolved r) ->
  exists rq,
    sendChat backend url tz payload st =
    (let st1 := mk_store (cookies st) (sent st ++ [rq])%list in
     if res_ok r then
       match res_json r with
       | Ret d => (Ret (ok_result d), st1)
       | Throw e => (Ret (chat_catch e), st1)
       end
     else chat_http_error r st1).
Proof.
  unfold chat_settlement. rewrite sendChat_eq.
  destruct (session_present st) as [s|]; [|discriminate].
  destruct (chat_body tz payload) as [b|e]; [|discriminate].
  intros H. injection H as H. exists (chat_request url s b). cbv zeta. rewrite H. reflexivity.
Qed.

Lemma chat_http_error_truthy r st :
  res_status r <> 401 ->
  truthy (error_details_message r) = true ->
  chat_http_error r st =
  (Ret (err_result (status_type (res_status r)) (res_status r) (error_details_message r)), st).
Proof.
  intros H401 Ht. unfold chat_http_error, status_type, mret. cbv zeta.
  apply Z.eqb_neq in H401. rewrite H401. unfold js_or. rewrite Ht.
  destruct (res_status r =? 403) eqn:E1; [apply Z.eqb_eq in E1; rewrite E1; reflexivity|].
  destruct (res_status r =? 422) eqn:E2; [apply Z.eqb_eq in E2; rewrite E2; reflexivity|].
  destruct (res_status r =? 500) eqn:E3; [apply Z.eqb_eq in E3; rewrite E3; reflexivity|].
  reflexivity.
Qed.

Lemma nonempty_append_truthy a c b : truthy (JStr (a ++ String c b)) = true.
Proof. destruct a; reflexivity. Qed.

(** A non-2xx answer other than 401 whose body is not JSON is reported under
    the status's type with the message "Request failed with status N"; the
    cookies are left as they are. *)
Theorem sendChat_unparsable_error_body backend url tz payload st r e :
  chat_settlement backend url tz payload st = Some (FetchResolved r) ->
  res_ok r = false -> res_status r <> 401 -> res_json r = Throw e ->
  fst (sendChat backend url tz payload st) =
    Ret (err_result (status_type (res_status r)) (res_status r)
           (JStr ("Request failed with status " ++ z_to_string (res_status r)))) /\
  cookies (snd (sendChat backend url tz payload st)) = cookies st.
Proof.
  intros Hs Hok H401 Hj. destruct (chat_settlement_resolved _ _ _ _ _ _ Hs) as [rq ->].
  cbv zeta. rewrite Hok, chat_http_error_truthy by (try assumption; unfold error_details_message;
    rewrite Hj; reflexivity).
  unfold error_details_message. rewrite Hj. split; reflexivity.
Qed.

Lemma sendChat_unparsable_error_body_witness :
  let r := mk_response 502 "Bad Gateway" (Throw (mk_exn "SyntaxError" "Unexpected token <")) in
  fst (sendChat (fun _ => FetchResolved r) None "UTC" (JObj [("message", JStr "hi")])
         (mk_store [("session", "tok")] [])) =
    Ret (err_result (status_type 502) 502 (JStr ("Request failed with status " ++ z_to_string 502))) /\
  cookies (snd (sendChat (fun _ => FetchResolved r) None "UTC" (JObj [("message", JStr "hi")])
         (mk_store [("session", "tok")] []))) = [("session", "tok")].
Proof.
  intros r.
  exact (sendChat_unparsable_error_body (fun _ => FetchResolved r) None "UTC"
           (JObj [("message", JStr "hi")]) (mk_store [("session", "tok")] []) r
           (mk_exn "SyntaxError" "Unexpected token <")
           eq_refl eq_refl ltac:(discriminate) eq_refl).
Defined.

Lemma map_outcome_messages msgs :
  map_outcome (fun err => get_prop err "message")
    (map (fun m => JObj [("message", JStr m)]) msgs) = Ret (map JStr msgs).
Proof. induction msgs as [|m r IH]; [reflexivity|]. simpl. rewrite IH. reflexivity. Qed.

Lemma map_join_elem_str msgs : map join_elem (map JStr msgs) = msgs.
Proof. induction msgs as [|m r IH]; [reflexivity|]. simpl. rewrite IH. reflexivity. Qed.

(** A non-2xx answer other than 401 whose body is
    [{ detail: { message: m, errors: [{ message: e1 }, ...] } }] with [m]
    non-empty is reported with the message "m (e1, e2, ...)". *)
Theorem sendChat_structured_detail backend url tz payload st r m msgs :
  chat_settlement backend url tz payload st = Some (FetchResolved r) ->
  res_ok r = false -> res_status r <> 401 -> m <> EmptyString ->
  res_json r = Ret (JObj [("detail", JObj [("message", JStr m);
                    ("errors", JArr (map (fun x => JObj [("message", JStr x)]) msgs))])]) ->
  fst (sendChat backend url tz payload st) =
    Ret (err_result (status_type (res_status r)) (res_status r)
           (JStr (m ++ " (" ++ str_concat ", " msgs ++ ")"))).
Proof.
  intros Hs Hok H401 Hm Hj.
  assert (Hmsg : error_details_message r = JStr (m ++ " (" ++ str_concat ", " msgs ++ ")")).
  { unfold error_details_message, detail_message. rewrite Hj.
    destruct m as [|c m']; [contradiction|].
    simpl. rewrite map_outcome_messages. simpl.
    rewrite map_join_elem_str, js_add_str. reflexivity. }
  destruct (chat_settlement_resolved _ _ _ _ _ _ Hs) as [rq ->].
  cbv zeta. rewrite Hok, chat_http_error_truthy, Hmsg; [reflexivity|assumption|].
  rewrite Hmsg. apply nonempty_append_truthy.
Qed.

Lemma sendChat_structured_detail_witness :
  let r := mk_response 422 "Unprocessable Entity"
    (Ret (JObj [("detail", JObj [("message", JStr "Invalid input");
       ("errors", JArr [JObj [("message", JStr "date in the past")];
                        JObj [("message", JStr "bad doctor")]])])])) in
  fst (sendChat (fun _ => FetchResolved r) None "UTC" (JObj [("message", JStr "hi")])
         (mk_store [("session", "tok")] [])) =
    Ret (err_result (status_type 422) 422
           (JStr ("Invalid input" ++ " (" ++ str_concat ", " ["date in the past"; "bad doctor"] ++ ")"))).
Proof.
  intros r.
  exact (sendChat_structured_detail (fun _ => FetchResolved r) None "UTC"
           (JObj [("message", JStr "hi")]) (mk_store [("session", "tok")] []) r
           "Invalid input" ["date in the past"; "bad doctor"]
           eq_refl eq_refl ltac:(discriminate) ltac:(discriminate) eq_refl).
Defined.

(** A non-2xx answer other than 401 whose body has a non-empty string
    [detail] is reported with that string as its message. *)
Theorem sendChat_string_detail backend url tz payload st r l d :
  chat_settlement backend url tz payload st = Some (FetchResolved r) ->
  res_ok r = false -> res_status r <> 401 -> d <> EmptyString ->
  res_json r = Ret (JObj l) -> lookup_field "detail" l = JStr d ->
  fst (sendChat backend url tz payload st) =
    Ret (err_result (status_type (res_status r)) (res_status r) (JStr d)).
Proof.
  intros Hs Hok H401 Hd Hj Hl.
  assert (Ht : truthy (JStr d) = true) by (destruct d; [contradiction | reflexivity]).
  assert (Hmsg : error_details_message r = JStr d).
  { unfold error_details_message. rewrite Hj. cbn [obind]. unfold detail_message.
    cbn [get_prop obind]. rewrite Hl. cbn [is_object]. rewrite Ht. reflexivity. }
  destruct (chat_settlement_resolved _ _ _ _ _ _ Hs) as [rq ->].
  cbv zeta. rewrite Hok, chat_http_error_truthy, Hmsg; [reflexivity|assumption|].
  rewrite Hmsg. exact Ht.
Qed.

Lemma sendChat_string_detail_witness :
  let r := mk_response 404 "Not Found" (Ret (JObj [("detail", JStr "Doctor not found")])) in
  fst (sendChat (fun _ => FetchResolved r) None "UTC" (JObj [("message", JStr "hi")])
         (mk_store [("session", "tok")] [])) =
    Ret (err_result (status_type 404) 404 (JStr "Doctor not found")).
Proof.
  intros r.
  exact (sendChat_string_detail (fun _ => FetchResolved r) None "UTC"
           (JObj [("message", JStr "hi")]) (mk_store [("session", "tok")] []) r
           [("detail", JStr "Doctor not found")] "Doctor not found"
           eq_refl eq_refl ltac:(discriminate) ltac:(discriminate) eq_refl eq_refl).
Defined.

(** A non-2xx answer other than 401 whose JSON object body has neither
    [detail] nor [message] gets the fixed text of its status for 403, 422 and
    500, and an undefined message for every other status. *)
Theorem sendChat_fallback_messages backend url tz payload st r l :
  chat_settlement backend url tz payload st = Some (FetchResolved r) ->
  res_ok r = false -> res_status r <> 401 ->
  res_json r = Ret (JObj l) -> lookup_field "detail" l = JUndef ->
  lookup_field "message" l = JUndef ->
  fst (sendChat backend url tz payload st) =
    Ret (err_result (status_type (res_status r)) (res_status r)
      (if res_status r =? 403 then JStr "Access denied. Insufficient permissions."
       else if res_status r =? 422 then JStr "Invalid request data."
       else if res_status r =? 500 then JStr "Server error occurred."
       else JUndef)).
Proof.
  intros Hs Hok H401 Hj Hd Hm.
  assert (Hmsg : error_details_message r = JUndef).
  { unfold error_details_message. rewrite Hj. cbn [obind]. unfold detail_message.
    cbn [get_prop obind]. rewrite Hd. cbn [is_object truthy]. exact Hm. }
  destruct (chat_settlement_resolved _ _ _ _ _ _ Hs) as [rq ->].
  cbv zeta. rewrite Hok. unfold chat_http_error, status_type, mret. cbv zeta.
  rewrite Hmsg. apply Z.eqb_neq in H401. rewrite H401.
  destruct (res_status r =? 403) eqn:E1; [apply Z.eqb_eq in E1; rewrite E1; reflexivity|].
  destruct (res_status r =? 422) eqn:E2; [apply Z.eqb_eq in E2; rewrite E2; reflexivity|].
  destruct (res_status r =? 500) eqn:E3; [apply Z.eqb_eq in E3; rewrite E3; reflexivity|].
  reflexivity.
Qed.

Lemma sendChat_fallback_messages_witness :
  let r := mk_response 403 "Forbidden" (Ret (JObj [("code", JNum 7)])) in
  fst (sendChat (fun _ => FetchResolved r) None "UTC" (JObj [("message", JStr "hi")])
         (mk_store [("session", "tok")] [])) =
    Ret (err_result (status_type 403) 403
      (if 403 =? 403 then JStr "Access denied. Insufficient permissions."
       else if 403 =? 422 then JStr "Invalid request data."
       else if 403 =? 500 then JStr "Server error occurred."
       else JUndef)).
Proof.
  intros r.
  exact (sendChat_fallback_messages (fun _ => FetchResolved r) None "UTC"
           (JObj [("message", JStr "hi")]) (mk_store [("session", "tok")] []) r
           [("code", JNum 7)] eq_refl eq_refl ltac:(discriminate) eq_refl eq_refl eq_refl).
Defined.

(** A 2xx answer with a JSON body is returned as [{ success: true, data }];
    one whose body is not JSON is reported as an [UNKNOWN_ERROR] 500 carrying
    the parse error's message.  Either way the cookies are left as they are. *)
Theorem sendChat_success_body backend url tz payload st r :
  chat_settlement backend url tz payload st = Some (FetchResolved r) ->
  res_ok r = true ->
  fst (sendChat backend url tz payload st) =
    match res_json r with
    | Ret d => Ret (ok_result d)
    | Throw e =>
        if String.eqb (exn_name e) "TypeError" && str_includes "fetch" (exn_message e)
        then Ret (err_result "NETWORK_ERROR" 503 (JStr "Unable to connect to server"))
        else Ret (err_result "UNKNOWN_ERROR" 500
                    (js_or (JStr (exn_message e)) (JStr "An unexpected error occurred")))
    end /\
  cookies (snd (sendChat backend url tz payload st)) = cookies st.
Proof.
  intros Hs Hok. destruct (chat_settlement_resolved _ _ _ _ _ _ Hs) as [rq ->].
  cbv zeta. rewrite Hok. destruct (res_json r) as [d|e]; [split; reflexivity|].
  rewrite chat_catch_shape. destruct (_ && _); split; reflexivity.
Qed.

Lemma sendChat_success_body_witness :
  let r := mk_response 200 "OK" (Throw (mk_exn "SyntaxError" "Unexpected end of JSON input")) in
  fst (sendChat (fun _ => FetchResolved r) None "UTC" (JObj [("message", JStr "hi")])
         (mk_store [("session", "tok")] [])) =
    match res_json r with
    | Ret d => Ret (ok_result d)
    | Throw e =>
        if String.eqb (exn_name e) "TypeError" && str_includes "fetch" (exn_message e)
        then Ret (err_result "NETWORK_ERROR" 503 (JStr "Unable to connect to server"))
        else Ret (err_result "UNKNOWN_ERROR" 500
                    (js_or (JStr (exn_message e)) (JStr "An unexpected error occurred")))
    end /\
  cookies (snd (sendChat (fun _ => FetchResolved r) None "UTC" (JObj [("message", JStr "hi")])
         (mk_store [("session", "tok")] []))) = [("session", "tok")].
Proof.
  intros r.
  exact (sendChat_success_body (fun _ => FetchResolved r) None "UTC"
           (JObj [("message", JStr "hi")]) (mk_store [("session", "tok")] []) r eq_refl eq_refl).
Defined.

(** ** The request [sendChat] sends *)

Lemma lookup_obj_set_same k v l : lookup_field k (obj_set k v l) = v.
Proof.
  induction l as [|[k' w] r IH]; simpl.
  - rewrite String.eqb_refl. reflexivity.
  - destruct (String.eqb k k') eqn:E; simpl; rewrite E; [reflexivity | exact IH].
Qed.

Lemma lookup_obj_set_other k k' v l :
  k' <> k -> lookup_field k' (obj_set k v l) = lookup_field k' l.
Proof.
  intros Hne. induction l as [|[k0 w] r IH]; simpl.
  - apply String.eqb_neq in Hne. rewrite Hne. reflexivity.
  - destruct (String.eqb k k0) eqn:E; simpl.
    + apply String.eqb_eq in E. subst k0. apply String.eqb_neq in Hne. rewrite Hne. reflexivity.
    + destruct (String.eqb k' k0); [reflexivity | exact IH].
Qed.

(** With a session cookie and an object payload, [sendChat] posts exactly one
    request, to [<apiInternalUrl or http://backend:8000>/chat/message], with
    the JSON content type and the session as its only cookie; its body has
    [user_tz] set to the payload's when truthy and to the server's time zone
    otherwise, and every other field of the payload unchanged. *)
Theorem sendChat_request_body backend url tz l st s :
  session_present st = Some s ->
  exists b,
    sent (snd (sendChat backend url tz (JObj l) st)) =
      app (sent st) [mk_request (opt_or url "http://backend:8000" ++ "/chat/message") "POST"
                     [("Content-Type", "application/json"); ("Cookie", "session=" ++ s)] b] /\
    opt_prop b "user_tz" = js_or (lookup_field "user_tz" l) (JStr tz) /\
    (forall k, k <> "user_tz" -> opt_prop b k = lookup_field k l).
Proof.
  intros Hs.
  exists (JObj (obj_set "user_tz" (js_or (lookup_field "user_tz" l) (JStr tz)) l)).
  split; [|split].
  - apply sendChat_request_sent; [exact Hs | reflexivity].
  - apply lookup_obj_set_same.
  - intros k Hk. apply lookup_obj_set_other. exact Hk.
Qed.

Lemma sendChat_request_body_witness :
  exists b,
    sent (snd (sendChat (fun _ => FetchRejected (type_error "fetch failed")) None "Europe/Paris"
                 (JObj [("message", JStr "hi"); ("user_tz", JStr EmptyString)])
                 (mk_store [("session", "tok")] []))) =
      app [] [mk_request (opt_or None "http://backend:8000" ++ "/chat/message") "POST"
                [("Content-Type", "application/json"); ("Cookie", "session=" ++ "tok")] b] /\
    opt_prop b "user_tz" =
      js_or (lookup_field "user_tz" [("message", JStr "hi"); ("user_tz", JStr EmptyString)])
        (JStr "Europe/Paris") /\
    (forall k, k <> "user_tz" ->
       opt_prop b k = lookup_field k [("message", JStr "hi"); ("user_tz", JStr EmptyString)]).
Proof.
  exact (sendChat_request_body (fun _ => FetchRejected (type_error "fetch failed")) None
           "Europe/Paris" [("message", JStr "hi"); ("user_tz", JStr EmptyString)]
           (mk_store [("session", "tok")] []) "tok" eq_refl).
Defined.

(** ** From a failed [sendChat] to the rendered error card *)

Lemma handle_err_bubble retry t s m :
  In (UiAppend (error_bubble (JNum s) m retry))
     (handle_chat_result retry (Ret (err_result t s m))).
Proof.
  unfold handle_chat_result. cbv zeta. simpl.
  destruct (String.eqb t "AUTHENTICATION_FAILED"); simpl; tauto.
Qed.

Lemma js_or_str m d : js_or (JStr m) (JStr d) = JStr (if String.eqb m EmptyString then d else m).
Proof. unfold js_or, truthy. destruct (String.eqb m EmptyString); reflexivity. Qed.

(** When [handleSubmit] shows an error result [{ type, status: s, message: m }]
    of [sendChat] for the retry text [q] (with [s] non-zero, and [JSON.parse]
    reading the bubble's content back), the first [SpecialBubble] renders it
    as the "Server Error" card with a Try Again button for 500, a Log In
    button and nothing else for 401, no button at all for 403, and a Try
    Again button for every other status; Try Again re-submits [q], and does
    nothing when [q] is empty. *)
Theorem error_result_card jp t s m q :
  s <> 0 ->
  jp (to_string (stringify_or_undef (error_payload (JNum s) (JStr m) (JStr q)))) =
    Ret (error_payload (JNum s) (JStr m) (JStr q)) ->
  exists msg,
    In (UiAppend msg) (handle_chat_result (JStr q) (Ret (err_result t s (JStr m)))) /\
    render_v1 jp false msg =
      (let retry_btn := mk_button ["Try Again"]
                          (if String.eqb q EmptyString then [] else submit_with (JStr q)) in
       Ret (if s =? 500 then Card "server_error" [retry_btn]
            else if s =? 401 then Card "Unauthorized" [mk_button ["Log In"] [Navigate "/login"]]
            else if s =? 403 then Card "Forbidden" []
            else if s =? 422 then Card "Validation Error" [retry_btn]
            else Card "Error" [retry_btn])).
Proof.
  intros Hs Hjp. exists (error_bubble (JNum s) (JStr m) (JStr q)).
  split; [apply handle_err_bubble|].
  unfold render_v1, parse_content. cbv zeta.
  change (opt_prop (error_bubble (JNum s) (JStr m) (JStr q)) "content")
    with (stringify_or_undef (error_payload (JNum s) (JStr m) (JStr q))).
  rewrite Hjp. unfold error_payload, retry_click, error_config. apply Z.eqb_neq in Hs.
  cbn -[js_or]. rewrite ?Hs. cbn -[js_or].
  destruct (String.eqb q EmptyString); destruct (s =? 500);
  destruct (s =? 401); destruct (s =? 403); destruct (s =? 422);
  cbn -[js_or]; rewrite ?js_or_str; reflexivity.
Qed.

Lemma error_result_card_witness :
  exists msg,
    In (UiAppend msg) (handle_chat_result (JStr "hi")
                         (Ret (err_result "AUTHENTICATION_FAILED" 401 (JStr "Session expired.")))) /\
    render_v1 (parse_only (error_payload (JNum 401) (JStr "Session expired.") (JStr "hi"))) false msg =
      (let retry_btn := mk_button ["Try Again"]
                          (if String.eqb "hi" EmptyString then [] else submit_with (JStr "hi")) in
       Ret (if 401 =? 500 then Card "server_error" [retry_btn]
            else if 401 =? 401 then Card "Unauthorized" [mk_button ["Log In"] [Navigate "/login"]]
            else if 401 =? 403 then Card "Forbidden" []
            else if 401 =? 422 then Card "Validation Error" [retry_btn]
            else Card "Error" [retry_btn])).
Proof.
  apply (error_result_card (parse_only (error_payload (JNum 401) (JStr "Session expired.") (JStr "hi")))
           "AUTHENTICATION_FAILED" 401 "Session expired." "hi").
  - discriminate.
  - vm_compute. reflexivity.
Defined.

(** ** The follow-up of a [confirm_booking] button *)

Lemma sendChat_result_shape backend url tz payload st :
  exists v, fst (sendChat backend url tz payload st) = Ret v /\
    ((exists d, v = ok_result d) \/ exists t s m, v = err_result t s m).
Proof.
  rewrite sendChat_eq.
  destruct (session_present st) as [s|];
    [|eexists; split; [reflexivity | right; do 3 eexists; reflexivity]].
  destruct (chat_body tz payload) as [b|e]; cbv zeta.
  - destruct (backend (chat_request url s b)) as [r|e].
    + destruct (res_ok r).
      * destruct (res_json r) as [d|e].
        -- eexists; split; [reflexivity | left; eexists; reflexivity].
        -- rewrite chat_catch_shape.
           destruct (_ && _); (eexists; split; [reflexivity | right; do 3 eexists; reflexivity]).
      * destruct (chat_http_error_eq r (mk_store (cookies st) (sent st ++ [chat_request url s b])%list))
          as [m Hm].
        rewrite Hm. eexists; split; [reflexivity | right; do 3 eexists; reflexivity].
    + rewrite chat_catch_shape.
      destruct (_ && _); (eexists; split; [reflexivity | right; do 3 eexists; reflexivity]).
  - rewrite chat_catch_shape.
    destruct (_ && _); (eexists; split; [reflexivity | right; do 3 eexists; reflexivity]).
Qed.

(** The continuation of Cancel / Book It in the second [SpecialBubble] reads
    [res.reply] and [res.agent], which no result of [sendChat] has (it
    returns [{ success, data }] or [{ success, error }]): whatever the
    backend answers, the handler adds the user's text and then an assistant
    message whose content and agent are undefined. *)
Theorem confirm_followup_reply_undefined backend url tz payload st text :
  exists v, fst (sendChat backend url tz payload st) = Ret v /\
    after_resume text v =
      [AddMessage (JObj [("role", JStr "user"); ("content", JStr text)]);
       AddMessage (JObj [("role", JStr "assistant"); ("content", JUndef); ("agent", JUndef)])].
Proof.
  destruct (sendChat_result_shape backend url tz payload st) as [v [Hv Hshape]].
  exists v. split; [exact Hv|].
  destruct Hshape as [[d ->] | [t [s [m ->]]]]; reflexivity.
Qed.

(** ** Which forms [login] sends *)

Lemma existsb_fst_assoc_set {A} (g : string -> bool) k (v : A) l :
  existsb (fun kv => g (fst kv)) (assoc_set k v l) = existsb (fun kv => g (fst kv)) l || g k.
Proof.
  induction l as [|[k' w] r IH]; simpl; [destruct (g k); reflexivity|].
  destruct (String.eqb k k') eqn:E; simpl.
  - apply String.eqb_eq in E. subst k'.
    destruct (g k), (existsb _ r); reflexivity.
  - rewrite IH. destruct (g k'), (existsb _ r), (g k); reflexivity.
Qed.

Lemma existsb_fst_from_entries {A} (g : string -> bool) (form : list (string * A)) :
  existsb (fun kv => g (fst kv)) (from_entries form) = existsb (fun kv => g (fst kv)) form.
Proof.
  unfold from_entries.
  assert (H : forall acc, existsb (fun kv => g (fst kv))
                (fold_left (fun acc kv => assoc_set (fst kv) (snd kv) acc) form acc) =
              existsb (fun kv => g (fst kv)) acc || existsb (fun kv => g (fst kv)) form).
  { induction form as [|kv r IH]; intros acc; simpl.
    - destruct (existsb _ acc); reflexivity.
    - rewrite IH, existsb_fst_assoc_set. rewrite Bool.orb_assoc. reflexivity. }
  rewrite H. reflexivity.
Qed.

Lemma login_unknown_keys (form : list (string * string)) :
  existsb (fun kv => negb (String.eqb (fst kv) "email" || String.eqb (fst kv) "password"))
    (from_entries form) = false <->
  (forall k, In k (map fst form) -> k = "email" \/ k = "password").
Proof.
  rewrite (existsb_fst_from_entries (fun k => negb (String.eqb k "email" || String.eqb k "password"))).
  split.
  - intros H k Hk. apply in_map_iff in Hk as [[k' v] [<- Hin]].
    destruct (String.eqb k' "email" || String.eqb k' "password") eqn:E.
    + apply Bool.orb_true_iff in E as [E|E]; apply String.eqb_eq in E; tauto.
    + exfalso. assert (existsb (fun kv => negb (String.eqb (fst kv) "email"
                                               || String.eqb (fst kv) "password")) form = true)
        as Ht by (apply existsb_exists; exists (k', v); split; [exact Hin | simpl; rewrite E; reflexivity]).
      congruence.
  - intros H. apply Bool.not_true_iff_false. intros Ht.
    apply existsb_exists in Ht as [[k v] [Hin Hk]]. simpl in Hk.
    destruct (H k) as [->| ->]; [apply in_map_iff; exists (k, v); auto | |]; discriminate.
Qed.

Lemma email_checks zod_email e :
  zstr_checks (Some e) [(zod_email, "Invalid email address")] =
  if zod_email (js_trim e) then [] else ["Invalid email address"].
Proof. simpl. destruct (zod_email (js_trim e)); reflexivity. Qed.

Lemma password_checks p :
  zstr_checks (Some p)
    [(min_len 8, "Password must be at least 8 characters");
     (max_len 128, "Password must be at most 128 characters")] = [] <->
  (8 <= js_length (js_trim p) <= 128)%nat.
Proof.
  simpl. unfold min_len, max_len.
  destruct (8 <=? js_length (js_trim p))%nat eqn:E1;
  destruct (js_length (js_trim p) <=? 128)%nat eqn:E2; simpl;
  rewrite ?Nat.leb_le, ?Nat.leb_gt in *; split; intros; try lia; try discriminate; reflexivity.
Qed.

(** [login] sends its one request, carrying the trimmed last [email] and
    [password] of the form, exactly when the form has no key other than
    [email] and [password], the trimmed e-mail passes the e-mail check and the
    trimmed password is 8 to 128 UTF-16 code units long; for every other form it returns
    [{ errors }] without any request and without touching the cookies. *)
Theorem login_form_gate backend url zod_email form st :
  (forall e p,
     (forall k, In k (map fst form) -> k = "email" \/ k = "password") ->
     assoc_get "email" (rev form) = Some e -> assoc_get "password" (rev form) = Some p ->
     zod_email (js_trim e) = true -> (8 <= js_length (js_trim p) <= 128)%nat ->
     sent (snd (login backend url zod_email form st)) =
       (sent st ++ [login_request url (js_trim e) (js_trim p)])%list) /\
  (~ (exists e p,
        (forall k, In k (map fst form) -> k = "email" \/ k = "password") /\
        assoc_get "email" (rev form) = Some e /\ assoc_get "password" (rev form) = Some p /\
        zod_email (js_trim e) = true /\ (8 <= js_length (js_trim p) <= 128)%nat) ->
   exists fe, login backend url zod_email form st =
                (Ret (ActReturn (JObj [("errors", field_errors_obj fe)])), st)).
Proof.
  split.
  - intros e p Hk He Hp Hz Hl.
    assert (Hparse : login_schema_parse zod_email (from_entries form) = inr (js_trim e, js_trim p)).
    { unfold login_schema_parse. rewrite !from_entries_get, He, Hp, email_checks, Hz.
      apply password_checks in Hl. rewrite Hl.
      apply login_unknown_keys in Hk. rewrite Hk. reflexivity. }
    unfold login. rewrite Hparse. unfold mbind, do_fetch.
    destruct (backend (login_request url (js_trim e) (js_trim p))) as [r|ex]; [|reflexivity].
    destruct (res_ok r); [reflexivity|].
    destruct (res_status r =? 500); [reflexivity|].
    unfold mlift, mret. destruct (get_prop (json_or_empty r) "detail"); reflexivity.
  - intros Hno. unfold login.
    destruct (login_schema_parse zod_email (from_entries form)) as [fe|[e p]] eqn:Hparse;
      [eexists; reflexivity|].
    exfalso. apply Hno. unfold login_schema_parse in Hparse.
    rewrite !from_entries_get in Hparse.
    destruct (assoc_get "email" (rev form)) as [e0|] eqn:He; [|cbn in Hparse; discriminate].
    rewrite email_checks in Hparse.
    destruct (zod_email (js_trim e0)) eqn:Hz; [|cbn in Hparse; discriminate].
    destruct (assoc_get "password" (rev form)) as [p0|] eqn:Hp; [|cbn in Hparse; discriminate].
    destruct (zstr_checks (Some p0) _) eqn:Hl; [|cbn in Hparse; discriminate].
    destruct (existsb _ (from_entries form)) eqn:Hk; [cbn in Hparse; discriminate|].
    exists e0, p0. pose proof (proj1 (login_unknown_keys form) Hk) as Hk'. apply password_checks in Hl.
    exact (conj Hk' (conj eq_refl (conj eq_refl (conj Hz Hl)))).
Qed.

Lemma login_form_gate_witness :
  sent (snd (login (answer_with 200 "OK" (Ret (JObj []))) (Some "http://backend:8000") (fun _ => true)
               [("email", " ann@example.com "); ("password", "correct-horse")] empty_store)) =
    ([] ++ [login_request (Some "http://backend:8000") (js_trim " ann@example.com ")
              (js_trim "correct-horse")])%list /\
  exists fe, login (answer_with 200 "OK" (Ret (JObj []))) (Some "http://backend:8000") (fun _ => true)
               [("email", "ann@example.com"); ("password", "short")] empty_store =
             (Ret (ActReturn (JObj [("errors", field_errors_obj fe)])), empty_store).
Proof.
  split.
  - apply (proj1 (login_form_gate (answer_with 200 "OK" (Ret (JObj []))) (Some "http://backend:8000")
                    (fun _ => true) [("email", " ann@example.com "); ("password", "correct-horse")]
                    empty_store)).
    + intros k Hk. simpl in Hk. destruct Hk as [<-|[<-|[]]]; auto.
    + reflexivity.
    + reflexivity.
    + reflexivity.
    + split; apply Nat.leb_le; vm_compute; reflexivity.
  - apply (proj2 (login_form_gate (answer_with 200 "OK" (Ret (JObj []))) (Some "http://backend:8000")
                    (fun _ => true) [("email", "ann@example.com"); ("password", "short")]
                    empty_store)).
    intros (e & p & _ & He & Hp & _ & Hl).
    vm_compute in He, Hp. injection He as <-. injection Hp as <-.
    apply password_checks in Hl. vm_compute in Hl. discriminate.
Defined.

(** A form that carries any key besides [email] and [password] (such as the
    [$ACTION_...] fields a form action adds, which [login] does not filter)
    is refused by the strict schema; when the e-mail and password themselves
    are valid, the refusal is reported as [{ errors: {} }], an empty
    [fieldErrors], and nothing is sent. *)
Theorem login_extra_key_empty_errors backend url zod_email form st k e p :
  In k (map fst form) -> k <> "email" -> k <> "password" ->
  assoc_get "email" (rev form) = Some e -> assoc_get "password" (rev form) = Some p ->
  zod_email (js_trim e) = true -> (8 <= js_length (js_trim p) <= 128)%nat ->
  login backend url zod_email form st = (Ret (ActReturn (JObj [("errors", JObj [])])), st).
Proof.
  intros Hin He' Hp' He Hp Hz Hl.
  assert (Hk : existsb (fun kv => negb (String.eqb (fst kv) "email" || String.eqb (fst kv) "password"))
                 (from_entries form) = true).
  { apply Bool.not_false_iff_true. intros Hf0. pose proof (proj1 (login_unknown_keys form) Hf0) as Hf.
    destruct (Hf k Hin); contradiction. }
  unfold login, login_schema_parse. rewrite !from_entries_get, He, Hp, email_checks, Hz.
  apply password_checks in Hl. rewrite Hl, Hk. reflexivity.
Qed.

Lemma login_extra_key_empty_errors_witness :
  login (answer_with 200 "OK" (Ret (JObj []))) (Some "http://backend:8000") (fun _ => true)
    [("$ACTION_ID_1f2e", ""); ("email", "ann@example.com"); ("password", "correct-horse")]
    empty_store = (Ret (ActReturn (JObj [("errors", JObj [])])), empty_store).
Proof.
  apply (login_extra_key_empty_errors _ _ _ _ _ "$ACTION_ID_1f2e" "ann@example.com" "correct-horse").
  - simpl. tauto.
  - discriminate.
  - discriminate.
  - reflexivity.
  - reflexivity.
  - reflexivity.
  - split; apply Nat.leb_le; vm_compute; reflexivity.
Defined.

(** ** How [register] ends *)

Lemma zstr_some v checks t : zstr v checks = Some t -> exists s, v = Some (FStr s) /\ t = js_trim s.
Proof.
  unfold zstr. destruct v as [[s| |]|]; try discriminate.
  destruct (forallb _ _); [|discriminate]. intros H. injection H as <-. eauto.
Qed.

Lemma register_schema_parse_passwords zod_email date_parse data parsed :
  register_schema_parse zod_email date_parse data = Some parsed ->
  exists p rp, assoc_get "password" data = Some (FStr p) /\
               assoc_get "repeat_password" data = Some (FStr rp) /\ js_trim p = js_trim rp.
Proof.
  unfold register_schema_parse. cbv zeta. intros H.
  destruct (zstr (assoc_get "email" data) [zod_email]) as [e|]; [|discriminate].
  destruct (zstr (assoc_get "password" data) [min_len 8]) as [p|] eqn:Hp; [|discriminate].
  destruct (zstr (assoc_get "first_name" data) [min_len 1]) as [fn|]; [|discriminate].
  destruct (zstr (assoc_get "last_name" data) [min_len 1]) as [ln|]; [|discriminate].
  destruct (zenum (assoc_get "sex" data) ["M"; "F"]) as [sx|]; [|discriminate].
  destruct (zstr (assoc_get "phone" data) [min_len 1]) as [ph|]; [|discriminate].
  destruct (zstr (assoc_get "address" data) [min_len 1]) as [ad|]; [|discriminate].
  destruct (zcoerce_date date_parse (assoc_get "dob" data)) as [t|]; [|discriminate].
  destruct (zrole (assoc_get "role" data)) as [role|]; [|discriminate].
  destruct (zstr (assoc_get "repeat_password" data) [min_len 8]) as [rp|] eqn:Hrp; [|discriminate].
  destruct (_ && String.eqb p rp) eqn:Hb; [|discriminate].
  apply Bool.andb_true_iff in Hb as [_ Hb]. apply String.eqb_eq in Hb. subst rp.
  apply zstr_some in Hp as (s1 & Hs1 & ->). apply zstr_some in Hrp as (s2 & Hs2 & He).
  exists s1, s2. auto.
Qed.

(** [register] never sends a form whose trimmed password and repeat password
    differ: it returns the schema's field errors and leaves the store as it
    is. *)
Theorem register_password_mismatch backend url zod_email date_parse fe data st p rp :
  assoc_get "password" data = Some (FStr p) ->
  assoc_get "repeat_password" data = Some (FStr rp) ->
  js_trim p <> js_trim rp ->
  register backend url zod_email date_parse fe data st =
    (Ret (ActReturn (JObj [("errors", fe data)])), st).
Proof.
  intros Hp Hrp Hne. unfold register.
  destruct (register_schema_parse zod_email date_parse data) as [parsed|] eqn:Hs; [|reflexivity].
  exfalso. apply register_schema_parse_passwords in Hs as (p' & rp' & Hp' & Hrp' & Heq).
  rewrite Hp in Hp'. rewrite Hrp in Hrp'. injection Hp' as <-. injection Hrp' as <-.
  contradiction.
Qed.

Lemma register_password_mismatch_witness :
  register (answer_with 201 "Created" (Ret (JObj []))) (Some "http://backend:8000")
    (fun _ => true) (fun _ => None) (fun _ => JObj [])
    (assoc_set "repeat_password" (FStr "correct-horse!") (reg_form 946684800000)) empty_store =
  (Ret (ActReturn (JObj [("errors", JObj [])])), empty_store).
Proof.
  apply (register_password_mismatch (answer_with 201 "Created" (Ret (JObj []))) (Some "http://backend:8000")
           (fun _ => true) (fun _ => None) (fun _ => JObj [])
           (assoc_set "repeat_password" (FStr "correct-horse!") (reg_form 946684800000)) empty_store
           "correct-horse" "correct-horse!").
  - reflexivity.
  - reflexivity.
  - intros H. vm_compute in H. discriminate.
Defined.

Lemma register_outcomes_valid backend url zod_email date_parse fe data st parsed :
  register_schema_parse zod_email date_parse data = Some parsed ->
  exists rq,
    sent (snd (register backend url zod_email date_parse fe data st)) = (sent st ++ [rq])%list /\
    match backend rq with
    | FetchRejected ex => fst (register backend url zod_email date_parse fe data st) = Throw ex
    | FetchResolved r =>
        fst (register backend url zod_email date_parse fe data st) =
        if res_ok r then Ret (ActRedirect "/login")
        else
          let api v := Ret (ActReturn (JObj [("errors", JObj [("api", JArr [v])])])) in
          match res_json r with
          | Throw _ => api (JStr (res_status_text r))
          | Ret (JObj l) => api (js_or (lookup_field "detail" l) (JStr (res_status_text r)))
          | Ret JNull => Throw (type_error "Cannot read properties of null (reading 'detail')")
          | Ret JUndef => Throw (type_error "Cannot read properties of undefined (reading 'detail')")
          | Ret _ => api (JStr (res_status_text r))
          end
    end.
Proof.
  intros H.
  destruct (register_schema_parse_shape _ _ _ _ H)
    as (e & p & fn & ln & sx & ph & ad & t & role & rp & Ht & Hrole & Hp).
  remember (register backend url zod_email date_parse fe data st) as R eqn:HR.
  unfold register in HR. rewrite H in HR. subst parsed.
  unfold mbind at 1, mlift in HR.
  rewrite (register_payload_shape e p fn ln sx ph ad t role rp Hrole) in HR.
  unfold mbind, do_fetch in HR. cbv zeta in HR.
  match type of HR with context [backend ?q] => exists q end.
  destruct (backend _) as [r|x]; subst R; [|split; reflexivity].
  destruct (res_ok r); [split; reflexivity|].
  unfold mlift, mret, json_or_empty.
  destruct (res_json r) as [[]|x]; split; reflexivity.
Qed.

(** For a schema-valid form, [register] sends one request and then: a 2xx
    answer redirects to "/login"; a non-2xx answer returns
    [{ errors: { api: [detail || statusText] } }], with the status text when
    the body is not JSON or has no truthy [detail]; a body that parses to
    [null] or is JSON for [undefined] makes the read of [err.detail] throw;
    a rejected [fetch] propagates. *)
Theorem register_response_outcomes backend url zod_email date_parse fe data st parsed :
  register_schema_parse zod_email date_parse data = Some parsed ->
  exists rq,
    sent (snd (register backend url zod_email date_parse fe data st)) = (sent st ++ [rq])%list /\
    match backend rq with
    | FetchRejected ex => fst (register backend url zod_email date_parse fe data st) = Throw ex
    | FetchResolved r =>
        fst (register backend url zod_email date_parse fe data st) =
        if res_ok r then Ret (ActRedirect "/login")
        else
          let api v := Ret (ActReturn (JObj [("errors", JObj [("api", JArr [v])])])) in
          match res_json r with
          | Throw _ => api (JStr (res_status_text r))
          | Ret (JObj l) => api (js_or (lookup_field "detail" l) (JStr (res_status_text r)))
          | Ret JNull => Throw (type_error "Cannot read properties of null (reading 'detail')")
          | Ret JUndef => Throw (type_error "Cannot read properties of undefined (reading 'detail')")
          | Ret _ => api (JStr (res_status_text r))
          end
    end.
Proof.
  intros H. exact (register_outcomes_valid backend url zod_email date_parse fe data st parsed H).
Qed.

Lemma register_response_outcomes_witness :
  exists rq,
    sent (snd (register (answer_with 409 "Conflict" (Ret (JObj [("detail", JStr "Email taken")])))
                 (Some "http://backend:8000") (fun _ => true) (fun _ => None) (fun _ => JObj [])
                 (reg_form 946684800000) empty_store)) = ([] ++ [rq])%list /\
    match answer_with 409 "Conflict" (Ret (JObj [("detail", JStr "Email taken")])) rq with
    | FetchRejected ex =>
        fst (register (answer_with 409 "Conflict" (Ret (JObj [("detail", JStr "Email taken")])))
               (Some "http://backend:8000") (fun _ => true) (fun _ => None) (fun _ => JObj [])
               (reg_form 946684800000) empty_store) = Throw ex
    | FetchResolved r =>
        fst (register (answer_with 409 "Conflict" (Ret (JObj [("detail", JStr "Email taken")])))
               (Some "http://backend:8000") (fun _ => true) (fun _ => None) (fun _ => JObj [])
               (reg_form 946684800000) empty_store) =
        if res_ok r then Ret (ActRedirect "/login")
        else
          let api v := Ret (ActReturn (JObj [("errors", JObj [("api", JArr [v])])])) in
          match res_json r with
          | Throw _ => api (JStr (res_status_text r))
          | Ret (JObj l) => api (js_or (lookup_field "detail" l) (JStr (res_status_text r)))
          | Ret JNull => Throw (type_error "Cannot read properties of null (reading 'detail')")
          | Ret JUndef => Throw (type_error "Cannot read properties of undefined (reading 'detail')")
          | Ret _ => api (JStr (res_status_text r))
          end
    end.
Proof.
  exact (register_response_outcomes (answer_with 409 "Conflict" (Ret (JObj [("detail", JStr "Email taken")])))
           (Some "http://backend:8000") (fun _ => true) (fun _ => None) (fun _ => JObj [])
           (reg_form 946684800000) empty_store (reg_parsed 946684800000) eq_refl).
Defined.

(** ** The headers the middleware forwards *)

(** A request without a truthy session [sub] that is not gated is forwarded
    with its headers exactly as the client sent them; in particular an
    [x-user-id] header supplied by the client reaches the downstream code
    untouched. *)
Theorem middleware_anonymous_headers jwt_verify secret req session :
  decrypt jwt_verify secret (session_cookie req) = Ret session ->
  truthy (opt_prop session "sub") = false ->
  pathname req <> "/c" ->
  middleware jwt_verify secret req = Ret (MwNext (mw_headers req)).
Proof.
  intros H Hs Hp. unfold middleware. rewrite H. cbn [obind]. rewrite Hs.
  rewrite (existsb_eqb_false (pathname req) protectedRoutes)
    by (intros [Hc|[]]; apply Hp; symmetry; exact Hc).
  cbn [andb negb]. destruct (existsb _ publicRoutes); reflexivity.
Qed.

Lemma middleware_anonymous_headers_witness :
  middleware (fun _ _ => Throw (mk_exn "JWSInvalid" "Invalid Compact JWS")) (Some "s3cret")
    (mk_mw_request "/c/history" (Some "forged") [("x-user-id", "42")]) =
  Ret (MwNext [("x-user-id", "42")]).
Proof.
  apply (middleware_anonymous_headers (fun _ _ => Throw (mk_exn "JWSInvalid" "Invalid Compact JWS"))
           (Some "s3cret") (mk_mw_request "/c/history" (Some "forged") [("x-user-id", "42")]) JNull);
    [reflexivity | reflexivity | discriminate].
Defined.







(** A [sub] whose text contains a NUL, line feed or carriage return between
    other characters cannot go into a header: for a request that is not
    redirected, the middleware throws a [TypeError] instead of forwarding it. *)
Theorem middleware_bad_sub_throws jwt_verify secret req session :
  decrypt jwt_verify secret (session_cookie req) = Ret session ->
  truthy (opt_prop session "sub") = true ->
  ~ In (pathname req) publicRoutes ->
  has_forbidden_header_char (normalize_header_value (to_string (opt_prop session "sub"))) = true ->
  exists msg, middleware jwt_verify secret req = Throw (type_error msg).
Proof.
  intros H Hs Hp Hf. unfold middleware. rewrite H. cbn [obind]. rewrite Hs.
  rewrite (existsb_eqb_false (pathname req) publicRoutes) by exact Hp.
  cbn [andb negb]. rewrite Bool.andb_false_r.
  unfold headers_set. rewrite Hf. eexists. reflexivity.
Qed.

Lemma middleware_bad_sub_throws_witness :
  exists msg,
    middleware (fun _ _ => Ret (JObj [("sub", JStr ("7" ++ String (ascii_of_nat 10) "x"))]))
      (Some "s3cret") (mk_mw_request "/c" (Some "jwt") []) = Throw (type_error msg).
Proof.
  apply (middleware_bad_sub_throws (fun _ _ => Ret (JObj [("sub", JStr ("7" ++ String (ascii_of_nat 10) "x"))]))
           (Some "s3cret") (mk_mw_request "/c" (Some "jwt") []) (JObj [("sub", JStr ("7" ++ String (ascii_of_nat 10) "x"))])).
  - reflexivity.
  - reflexivity.
  - intros [H|[H|[]]]; discriminate.
  - vm_compute. reflexivity.
Defined.

(** ** [RegisterForm.onSubmit] on the results of [register] *)

(** The register form toasts the API's [detail] (or the status text, or
    "Registration failed" when both are empty) for a refused registration of
    a schema-valid form whose error body is a JSON object; when [register]
    returns the schema's field errors instead (an object without [api]),
    reading [result.errors.api[0]] throws a [TypeError]. *)
Theorem onSubmit_register_errors backend url zod_email date_parse fe data st :
  (forall parsed r l,
     register_schema_parse zod_email date_parse data = Some parsed ->
     (forall rq, backend rq = FetchResolved r) ->
     res_ok r = false -> res_json r = Ret (JObj l) ->
     match fst (register backend url zod_email date_parse fe data st) with
     | Ret a => onSubmit a = Ret (Some (js_or (js_or (lookup_field "detail" l)
                                                  (JStr (res_status_text r)))
                                           (JStr "Registration failed")))
     | Throw _ => False
     end) /\
  (forall l,
     register_schema_parse zod_email date_parse data = None ->
     fe data = JObj l -> lookup_field "api" l = JUndef ->
     match fst (register backend url zod_email date_parse fe data st) with
     | Ret a => onSubmit a = Throw (type_error "Cannot read properties of undefined (reading '0')")
     | Throw _ => False
     end).
Proof.
  split.
  - intros parsed r l Hs Hb Hok Hj.
    destruct (register_outcomes_valid backend url zod_email date_parse fe data st parsed Hs)
      as [rq [_ Hr]].
    rewrite Hb, Hok, Hj in Hr. cbv zeta in Hr. rewrite Hr. reflexivity.
  - intros l Hs Hfe Hapi. unfold register. rewrite Hs. cbn.
    rewrite Hfe. cbn. rewrite Hapi. reflexivity.
Qed.

Lemma onSubmit_register_errors_witness :
  match fst (register (answer_with 409 "Conflict" (Ret (JObj [("detail", JStr "Email taken")])))
               (Some "http://backend:8000") (fun _ => true) (fun _ => None)
               (fun _ => JObj [("email", JArr [JStr "Required"])]) (reg_form 946684800000) empty_store) with
  | Ret a => onSubmit a = Ret (Some (js_or (js_or (lookup_field "detail" [("detail", JStr "Email taken")])
                                               (JStr "Conflict"))
                                        (JStr "Registration failed")))
  | Throw _ => False
  end /\
  match fst (register (answer_with 409 "Conflict" (Ret (JObj [("detail", JStr "Email taken")])))
               (Some "http://backend:8000") (fun _ => true) (fun _ => None)
               (fun _ => JObj [("email", JArr [JStr "Required"])]) [] empty_store) with
  | Ret a => onSubmit a = Throw (type_error "Cannot read properties of undefined (reading '0')")
  | Throw _ => False
  end.
Proof.
  split.
  - apply (proj1 (onSubmit_register_errors (answer_with 409 "Conflict" (Ret (JObj [("detail", JStr "Email taken")])))
              (Some "http://backend:8000") (fun _ => true) (fun _ => None)
              (fun _ => JObj [("email", JArr [JStr "Required"])]) (reg_form 946684800000) empty_store)
              (reg_parsed 946684800000) (mk_response 409 "Conflict" (Ret (JObj [("detail", JStr "Email taken")])))).
    + reflexivity.
    + intros rq. reflexivity.
    + reflexivity.
    + reflexivity.
  - apply (proj2 (onSubmit_register_errors (answer_with 409 "Conflict" (Ret (JObj [("detail", JStr "Email taken")])))
              (Some "http://backend:8000") (fun _ => true) (fun _ => None)
              (fun _ => JObj [("email", JArr [JStr "Required"])]) [] empty_store)
              [("email", JArr [JStr "Required"])]).
    + reflexivity.
    + reflexivity.
    + reflexivity.
Defined.

(** [trim] removes U+00A0 (bytes C2 A0) and U+3000 (E3 80 80) as it does
    ASCII white space, and [.length] counts UTF-16 code units: "7 characters
    and a no-break space" trims to a 7-unit password, and U+1F600 (four bytes)
    is two units. *)
Lemma js_trim_unicode_ws :
  js_trim (String (ascii_of_nat 194) (String (ascii_of_nat 160) EmptyString)) = EmptyString /\
  js_trim (String (ascii_of_nat 227) (String (ascii_of_nat 128) (String (ascii_of_nat 128)
    (String "x"%char (String (ascii_of_nat 194) (String (ascii_of_nat 160) EmptyString))))))
    = String "x"%char EmptyString /\
  js_length (js_trim (String.append "1234567"%string
    (String (ascii_of_nat 194) (String (ascii_of_nat 160) EmptyString)))) = 7%nat /\
  js_length (String (ascii_of_nat 240) (String (ascii_of_nat 159) (String (ascii_of_nat 152)
    (String (ascii_of_nat 128) EmptyString)))) = 2%nat.
Proof. vm_compute. repeat split. Qed.
